(** * CalTalk: the interval-scheduling engine

    A shallow embedding of [backend/app/services/calendar.py]
    ([CalendarService]), [app/services/scheduler.py] ([SchedulerService])
    and the settings of [backend/app/config.py], followed by the properties
    of the free-slot scan, the slot selectors and the day optimizer.

    Modelling conventions.
    - A [datetime] is the number of microseconds since midnight of the day
      with proleptic ordinal 0, a [date] is its ordinal, a [timedelta] and a
      [time] are numbers of microseconds.  All timestamps are taken as
      already normalised to one time zone, and the ISO-8601 text kept by the
      provider is identified with the timestamp it denotes.  The range
      limits of [datetime] (years 1 to 9999) are not modelled.
    - Python exceptions are values of [exn]; a computation that talks to the
      calendar provider is a function from the provider's store to an
      outcome and a new store.
    - The [while] loop of [find_free_slots] is run with fuel; [Diverge] is
      the outcome of a run whose fuel ran out.
    - The Google Calendar service behind [self.service] is an external
      collaborator.  It is modelled as an in-memory list of timed events
      (events with [start.dateTime] and [end.dateTime]): [events().list]
      returns the events that intersect the queried range in start order,
      [events().get] and [events().update] fail with [HttpError] on an
      unknown id.  Stored events carry the keys [id], [summary],
      [start.dateTime] and [end.dateTime], the last two as ISO text.
    - The body of [events().update] is serialised as JSON by the client
      library before anything is sent.  A body that holds a [datetime]
      object where the text of a timestamp belongs cannot be serialised:
      the call raises [TypeError] and the store is not touched.  A body
      that can be serialised replaces the stored event.
    - [find_free_slots] is split into the fetch of the day's events and
      [free_slots_of], the scan itself on an arbitrary list of busy slots,
      so that the scan can be stated for every busy list.
    - [events().insert] stores the body under the id the provider assigns,
      which is an argument of [create_event] here; [events().delete]
      removes the event of the given id.
    - Of [backend/app/services/nlp.py] the time arithmetic of the fallback
      parser and the gap search of [suggest_time_slots] are modelled, on
      the parts of the captured text and with the floating-point duration
      test as a parameter. *)

From Stdlib Require Import ZArith Lia List Bool Sorted.
From stdpp Require Import base gmap strings list.

Local Open Scope Z_scope.

(** ** Python values and exceptions *)

Module Py.

Inductive exn : Type :=
| TypeError
| ValueError
| IndexError
| HttpError.

(** The outcome of a call: a value, a raised exception, or fuel exhausted. *)
Inductive res (A : Type) : Type :=
| Ok (a : A)
| Raise (e : exn)
| Diverge.

Arguments Ok {A} a.
Arguments Raise {A} e.
Arguments Diverge {A}.

Definition second_us : Z := 1000000.
Definition minute_us : Z := 60 * second_us.
Definition hour_us : Z := 60 * minute_us.
Definition day_us : Z := 24 * hour_us.

(** [timedelta(minutes=m)] and [timedelta(days=d)]. *)
Definition timedelta_minutes (m : Z) : Z := m * minute_us.
Definition timedelta_days (d : Z) : Z := d * day_us.

(** The two classes an argument called [date] is given in this code base:
    [datetime.date] and [datetime.datetime]. *)
Inductive date_arg : Type :=
| PyDate (ordinal : Z)
| PyDatetime (us : Z).

(** [datetime.combine(d, datetime.min.time())] *)
Definition combine_min (d : Z) : Z := d * day_us.

(** [dt.date()], as an ordinal *)
Definition date_of (dt : Z) : Z := dt / day_us.

(** [dt.time()], as microseconds since midnight *)
Definition time_of (dt : Z) : Z := dt mod day_us.

(** [dt.hour] *)
Definition hour_of (dt : Z) : Z := time_of dt / hour_us.

(** [d.weekday()]: Monday is 0; ordinal 1 (0001-01-01) is a Monday. *)
Definition weekday (d : Z) : Z := (d + 6) mod 7.

(** [x.replace(hour=0, minute=0, second=0, microsecond=0)]: a [datetime]
    is moved to its midnight; [date.replace] accepts no [hour] keyword and
    raises [TypeError]. *)
Definition replace_midnight (x : date_arg) : res Z :=
  match x with
  | PyDatetime us => Ok (us - time_of us)
  | PyDate _ => Raise TypeError
  end.

(** The values a loosely typed request field can hold. *)
Inductive value : Type :=
| VNone
| VInt (n : Z)
| VTime (us : Z)
| VDatetime (us : Z)
| VTimedelta (us : Z).

(** [a - b].  [datetime.time] defines no subtraction, and no class below
    defines a reflected one against it. *)
Definition sub (a b : value) : res value :=
  match a, b with
  | VInt x, VInt y => Ok (VInt (x - y))
  | VDatetime x, VDatetime y => Ok (VTimedelta (x - y))
  | VDatetime x, VTimedelta d => Ok (VDatetime (x - d))
  | VTimedelta x, VTimedelta y => Ok (VTimedelta (x - y))
  | _, _ => Raise TypeError
  end.

(** [abs(a)] *)
Definition abs (a : value) : res value :=
  match a with
  | VInt x => Ok (VInt (Z.abs x))
  | VTimedelta x => Ok (VTimedelta (Z.abs x))
  | _ => Raise TypeError
  end.

(** [a < b] *)
Definition lt (a b : value) : res bool :=
  match a, b with
  | VInt x, VInt y => Ok (x <? y)
  | VTime x, VTime y => Ok (x <? y)
  | VDatetime x, VDatetime y => Ok (x <? y)
  | VTimedelta x, VTimedelta y => Ok (x <? y)
  | _, _ => Raise TypeError
  end.

(** Truth value of [a] in a condition. *)
Definition truthy (a : value) : bool :=
  match a with
  | VNone => false
  | VInt n => negb (n =? 0)
  | VTime _ => true
  | VDatetime _ => true
  | VTimedelta d => negb (d =? 0)
  end.

Definition bind_res {A B} (r : res A) (k : A -> res B) : res B :=
  match r with
  | Ok a => k a
  | Raise e => Raise e
  | Diverge => Diverge
  end.

(** [min(items, key=key)]: the key of every item is computed in order and
    the first item with the least key is kept; [ValueError] on an empty
    sequence. *)
Fixpoint min_from {A} (key : A -> res value) (best : A) (best_key : value)
         (items : list A) : res A :=
  match items with
  | [] => Ok best
  | x :: rest =>
      bind_res (key x) (fun k =>
      bind_res (lt k best_key) (fun smaller =>
      if smaller then min_from key x k rest
      else min_from key best best_key rest))
  end.

Definition min_by {A} (key : A -> res value) (items : list A) : res A :=
  match items with
  | [] => Raise ValueError
  | x :: rest => bind_res (key x) (fun k => min_from key x k rest)
  end.

End Py.

Import Py.

(** ** Settings ([config.py]) *)

Module Settings.

Definition DEFAULT_EVENT_DURATION : Z := 60.
Definition MIN_EVENT_DURATION : Z := 15.
Definition MAX_EVENT_DURATION : Z := 480.
Definition PRIORITY_LEVELS : list string := ["low"; "medium"; "high"; "urgent"]%string.
Definition DEFAULT_TIMEZONE : string := "UTC".

End Settings.

(** ** The calendar provider and [CalendarService] ([calendar.py]) *)

Module CalendarService.

(** A stored event: [id], [summary], the timestamps under
    [start.dateTime] and [end.dateTime], and the optional [priority] key
    that [optimize_schedule] reads. *)
Record event : Type := {
  ev_id : string;
  ev_summary : string;
  ev_start : Z;
  ev_end : Z;
  ev_priority : option string
}.

(** The provider's calendar ['primary']. *)
Definition store : Type := list event.

(** A free slot, the dictionary [{'start': .., 'end': ..}]. *)
Record slot : Type := {
  slot_start : Z;
  slot_end : Z
}.

(** The fields of the [event_data] dictionary that [create_event] and
    [update_event] read; [start_time] and [end_time] are [datetime]
    objects. *)
Record event_data : Type := {
  ed_title : option string;
  ed_start_time : option Z;
  ed_end_time : option Z
}.

(** What a request body holds under [dateTime]: the ISO text of a
    timestamp, or a [datetime] object put there as it is. *)
Inductive date_time_value : Type :=
| IsoText (t : Z)
| DatetimeObject (t : Z).

(** The dictionary [{'dateTime': .., 'timeZone': ..}]. *)
Record time_field : Type := {
  tf_dateTime : date_time_value;
  tf_timeZone : string
}.

(** The body that [update_event] sends: the event it fetched, with the
    keys [summary], [start] and [end] replaced. *)
Record update_body : Type := {
  ub_fetched : event;
  ub_summary : string;
  ub_start : time_field;
  ub_end : time_field
}.

(** *** The provider *)

Fixpoint insert_by_start (e : event) (sorted : list event) : list event :=
  match sorted with
  | [] => [e]
  | x :: rest =>
      if ev_start e <=? ev_start x then e :: x :: rest
      else x :: insert_by_start e rest
  end.

(** [orderBy='startTime'], keeping the stored order among equal starts. *)
Definition order_by_start (events : list event) : list event :=
  fold_right insert_by_start [] events.

(** [events().list(timeMin, timeMax, singleEvents=True, orderBy='startTime')]:
    the events that end after [timeMin] and start before [timeMax]. *)
Definition events_list (cal : store) (timeMin timeMax : Z) : list event :=
  order_by_start
    (List.filter (fun e => (timeMin <? ev_end e) && (ev_start e <? timeMax)) cal).

(** [events().get(eventId)] *)
Definition events_get (cal : store) (event_id : string) : res event :=
  match List.find (fun e => String.eqb (ev_id e) event_id) cal with
  | Some e => Ok e
  | None => Raise HttpError
  end.

(** The store with [body] in the place of the event called [event_id]. *)
Definition replace_stored (event_id : string) (body : event) (cal : store) : store :=
  List.map (fun e => if String.eqb (ev_id e) event_id then body else e) cal.

(** The JSON serialisation of what a body holds under [dateTime]. *)
Definition serialise (v : date_time_value) : res Z :=
  match v with
  | IsoText t => Ok t
  | DatetimeObject _ => Raise TypeError
  end.

(** [events().update(eventId, body).execute()]: the body is serialised,
    then the provider puts it in the place of the stored event and returns
    what it stored. *)
Definition events_update (cal : store) (event_id : string) (body : update_body)
  : res event * store :=
  match serialise (tf_dateTime (ub_start body)) with
  | Ok start_text =>
      match serialise (tf_dateTime (ub_end body)) with
      | Ok end_text =>
          match List.find (fun e => String.eqb (ev_id e) event_id) cal with
          | Some _ =>
              let updated_event :=
                {| ev_id := ev_id (ub_fetched body);
                   ev_summary := ub_summary body;
                   ev_start := start_text;
                   ev_end := end_text;
                   ev_priority := ev_priority (ub_fetched body) |} in
              (Ok updated_event, replace_stored event_id updated_event cal)
          | None => (Raise HttpError, cal)
          end
      | Raise e => (Raise e, cal)
      | Diverge => (Diverge, cal)
      end
  | Raise e => (Raise e, cal)
  | Diverge => (Diverge, cal)
  end.

(** *** The service *)

Definition get_daily_agenda (cal : store) (date : date_arg) : res (list event) :=
  bind_res (replace_midnight date) (fun start_time =>
  let end_time := start_time + timedelta_days 1 in
  Ok (events_list cal start_time end_time)).

Definition check_conflicts (cal : store) (start_time end_time : Z) : list event :=
  events_list cal start_time end_time.

(** [update_event]: [summary], [start] and [end] of the fetched event are
    rebuilt, each time field with [timeZone] set to [DEFAULT_TIMEZONE].
    [event_data.get('start_time', ..)] is the caller's [datetime] object
    when the key is there (there is no [.isoformat()] as in
    [create_event]) and the stored text otherwise.  The default
    [event['summary']] is looked up whether or not a title is given; the
    events of the store all carry a summary. *)
Definition update_event (cal : store) (event_id : string) (data : event_data)
  : res event * store :=
  match events_get cal event_id with
  | Ok event =>
      let body :=
        {| ub_fetched := event;
           ub_summary := default (ev_summary event) (ed_title data);
           ub_start :=
             {| tf_dateTime :=
                  match ed_start_time data with
                  | Some start_time => DatetimeObject start_time
                  | None => IsoText (ev_start event)
                  end;
                tf_timeZone := Settings.DEFAULT_TIMEZONE |};
           ub_end :=
             {| tf_dateTime :=
                  match ed_end_time data with
                  | Some end_time => DatetimeObject end_time
                  | None => IsoText (ev_end event)
                  end;
                tf_timeZone := Settings.DEFAULT_TIMEZONE |} |} in
      events_update cal event_id body
  | Raise e => (Raise e, cal)
  | Diverge => (Diverge, cal)
  end.

(** The inner [for busy_start, busy_end in busy_slots] of
    [find_free_slots]: the end of the first busy slot, in list order, that
    the candidate runs into, or [None] when the candidate is free. *)
Fixpoint first_busy_end (current_time slot_end : Z) (busy_slots : list (Z * Z))
  : option Z :=
  match busy_slots with
  | [] => None
  | (busy_start, busy_end) :: rest =>
      if (current_time <? busy_end) && (slot_end >? busy_start)
      then Some busy_end
      else first_busy_end current_time slot_end rest
  end.

(** One turn of the [while current_time < end_time] loop on the pair
    [(free_slots, current_time)]; [None] is the exit of the loop. *)
Definition scan_step (end_time duration_minutes : Z) (busy_slots : list (Z * Z))
           (st : list slot * Z) : option (list slot * Z) :=
  let '(free_slots, current_time) := st in
  if current_time <? end_time then
    let slot_end := current_time + timedelta_minutes duration_minutes in
    if slot_end >? end_time then None
    else
      match first_busy_end current_time slot_end busy_slots with
      | Some busy_end => Some (free_slots, busy_end + timedelta_minutes 15)
      | None =>
          Some (free_slots ++ [{| slot_start := current_time; slot_end := slot_end |}],
                slot_end)
      end
  else None.

Fixpoint scan (fuel : nat) (end_time duration_minutes : Z)
         (busy_slots : list (Z * Z)) (st : list slot * Z) : res (list slot) :=
  match fuel with
  | O => Diverge
  | S fuel' =>
      match scan_step end_time duration_minutes busy_slots st with
      | None => Ok (fst st)
      | Some st' => scan fuel' end_time duration_minutes busy_slots st'
      end
  end.

(** The scan of [find_free_slots] on the busy slots of the day whose
    midnight is [start_time]. *)
Definition free_slots_of (fuel : nat) (start_time duration_minutes : Z)
           (busy_slots : list (Z * Z)) : res (list slot) :=
  let end_time := start_time + timedelta_days 1 in
  scan fuel end_time duration_minutes busy_slots ([], start_time).

Definition busy_of (events : list event) : list (Z * Z) :=
  List.map (fun e => (ev_start e, ev_end e)) events.

Definition find_free_slots (fuel : nat) (cal : store) (date : date_arg)
           (duration_minutes : Z) : res (list slot) :=
  bind_res (replace_midnight date) (fun start_time =>
  bind_res (get_daily_agenda cal date) (fun events =>
  free_slots_of fuel start_time duration_minutes (busy_of events))).

(** [events().insert(body)]: the provider stores the body under the id it
    assigns, [new_id], and returns what it stored. *)
Definition events_insert (cal : store) (new_id : string) (body : event)
  : res event * store :=
  let created :=
    {| ev_id := new_id;
       ev_summary := ev_summary body;
       ev_start := ev_start body;
       ev_end := ev_end body;
       ev_priority := ev_priority body |} in
  (Ok created, cal ++ [created]).

(** [events().delete(eventId)] *)
Definition events_delete (cal : store) (event_id : string) : res unit * store :=
  match List.find (fun e => String.eqb (ev_id e) event_id) cal with
  | Some _ =>
      (Ok tt, List.filter (fun e => negb (String.eqb (ev_id e) event_id)) cal)
  | None => (Raise HttpError, cal)
  end.

(** [create_event]: [now] is [datetime.now()].  The body sent to the
    provider has the keys [summary], [start], [end], [description],
    [location], [attendees] and [reminders]; no [priority] key is sent. *)
Definition create_event (now : Z) (new_id : string) (cal : store)
           (data : event_data) : res event * store :=
  let title :=
    match ed_title data with
    | Some t => if String.eqb t "" then "Untitled Event"%string else t
    | None => "Untitled Event"%string
    end in
  let start_time := default now (ed_start_time data) in
  let end_time := default (start_time + timedelta_minutes 60) (ed_end_time data) in
  events_insert cal new_id
    {| ev_id := ""; ev_summary := title; ev_start := start_time;
       ev_end := end_time; ev_priority := None |}.

Definition delete_event (cal : store) (event_id : string) : res unit * store :=
  events_delete cal event_id.

End CalendarService.

Import CalendarService.

(** ** [SchedulerService] ([scheduler.py]) *)

Module SchedulerService.

(** The fields of [routine_data] that [suggest_routine_times] reads; [None]
    is an absent key, and an absent [preferred_time] reads as [VNone]. *)
Record routine_data : Type := {
  rd_duration_minutes : option Z;
  rd_preferred_time : value;
  rd_days_of_week : option (list Z)
}.

(** An entry of the list that [suggest_routine_times] returns. *)
Record suggestion : Type := {
  sg_date : Z;
  sg_start_time : Z;
  sg_end_time : Z
}.

(** An entry of [optimized_schedule]. *)
Record placed : Type := {
  pl_event : event;
  pl_start_time : Z;
  pl_end_time : Z
}.

(** [items[0]] *)
Definition first_item {A} (items : list A) : res A :=
  match items with
  | x :: _ => Ok x
  | [] => Raise IndexError
  end.

Definition is_morning (s : slot) : bool := hour_of (slot_start s) <? 12.

Definition _select_best_slot (free_slots : list slot) (priority : string) : res slot :=
  if String.eqb priority "high" || String.eqb priority "urgent" then
    match List.filter is_morning free_slots with
    | m :: _ => Ok m
    | [] => first_item free_slots
    end
  else first_item free_slots.

(** The key of [reschedule_conflicts]: [abs(x['start'] - new_time)]. *)
Definition distance_key (new_time : Z) (x : slot) : res value :=
  bind_res (sub (VDatetime (slot_start x)) (VDatetime new_time)) abs.

Definition reschedule_conflicts (fuel : nat) (event_id : string) (new_time : Z)
           (cal : store) : res event * store :=
  match events_get cal event_id with
  | Ok original_event =>
      let start_time := ev_start original_event in
      let end_time := ev_end original_event in
      let duration := end_time - start_time in
      let conflicts := check_conflicts cal new_time (new_time + duration) in
      let resolved : res Z :=
        match conflicts with
        | [] => Ok new_time
        | _ :: _ =>
            bind_res (find_free_slots fuel cal (PyDate (date_of new_time))
                                      (Z.quot duration minute_us))
              (fun free_slots =>
                 match free_slots with
                 | [] => Raise ValueError
                 | _ :: _ =>
                     bind_res (min_by (distance_key new_time) free_slots)
                              (fun selected_slot => Ok (slot_start selected_slot))
                 end)
        end in
      match resolved with
      | Ok new_time' =>
          update_event cal event_id
            {| ed_title := None;
               ed_start_time := Some new_time';
               ed_end_time := Some (new_time' + duration) |}
      | Raise e => (Raise e, cal)
      | Diverge => (Diverge, cal)
      end
  | Raise e => (Raise e, cal)
  | Diverge => (Diverge, cal)
  end.

(** The key of [suggest_routine_times]:
    [abs(x['start'].time() - preferred_time)]. *)
Definition time_of_day_key (preferred_time : value) (x : slot) : res value :=
  bind_res (sub (VTime (time_of (slot_start x))) preferred_time) abs.

(** The choice of [best_slot] among the non-empty [free_slots] of a day. *)
Definition select_routine_slot (preferred_time : value) (free_slots : list slot)
  : res slot :=
  if truthy preferred_time
  then min_by (time_of_day_key preferred_time) free_slots
  else first_item free_slots.

(** The body of [for _ in range(7)], run on [days] consecutive dates. *)
Fixpoint routine_days (fuel : nat) (cal : store) (duration_minutes : Z)
         (preferred_time : value) (days_of_week : list Z)
         (days : nat) (current_date : Z) (suggestions : list suggestion)
  : res (list suggestion) :=
  match days with
  | O => Ok suggestions
  | S days' =>
      let next := routine_days fuel cal duration_minutes preferred_time
                               days_of_week days' (current_date + 1) in
      if existsb (Z.eqb (weekday current_date)) days_of_week then
        bind_res (find_free_slots fuel cal (PyDatetime (combine_min current_date))
                                  duration_minutes)
          (fun free_slots =>
             match free_slots with
             | [] => next suggestions
             | _ :: _ =>
                 bind_res (select_routine_slot preferred_time free_slots)
                   (fun best_slot =>
                      next (suggestions ++
                              [{| sg_date := current_date;
                                  sg_start_time := slot_start best_slot;
                                  sg_end_time := slot_end best_slot |}]))
             end)
      else next suggestions
  end.

(** [today] is [datetime.now().date()]. *)
Definition suggest_routine_times (fuel : nat) (cal : store) (today : Z)
           (routine : routine_data) : res (list suggestion) :=
  let duration_minutes :=
    default Settings.DEFAULT_EVENT_DURATION (rd_duration_minutes routine) in
  let preferred_time := rd_preferred_time routine in
  let days_of_week := default [0; 1; 2; 3; 4] (rd_days_of_week routine) in
  routine_days fuel cal duration_minutes preferred_time days_of_week 7 today [].

(** [{priority: i for i, priority in enumerate(levels)}] *)
Fixpoint enumerate_into (levels : list string) (i : nat) (m : gmap string nat)
  : gmap string nat :=
  match levels with
  | [] => m
  | priority :: rest => enumerate_into rest (S i) (<[priority := i]> m)
  end.

Definition priority_order : gmap string nat :=
  enumerate_into Settings.PRIORITY_LEVELS 0%nat ∅.

(** The sort key [priority_order.get(x.get('priority', 'medium'), 0)]. *)
Definition priority_rank (x : event) : nat :=
  default 0%nat (priority_order !! default "medium"%string (ev_priority x)).

Fixpoint insert_by_rank (e : event) (sorted : list event) : list event :=
  match sorted with
  | [] => [e]
  | x :: rest =>
      if (priority_rank e <=? priority_rank x)%nat then e :: x :: rest
      else x :: insert_by_rank e rest
  end.

(** [sorted(events, key=...)], a stable sort. *)
Definition sort_by_priority (events : list event) : list event :=
  fold_right insert_by_rank [] events.

(** The accumulator entries that the interval of an event runs into. *)
Definition conflicts_with (optimized_schedule : list placed) (start_time end_time : Z)
  : list placed :=
  List.filter (fun e => (start_time <? pl_end_time e) && (end_time >? pl_start_time e))
              optimized_schedule.

Definition keep_original (event : event) : placed :=
  {| pl_event := event; pl_start_time := ev_start event; pl_end_time := ev_end event |}.

Section Walk.

(** The walk of [optimize_schedule] over the sorted events, for a given
    rescheduling procedure. *)
Variable reschedule : string -> Z -> store -> res event * store.

Fixpoint optimize_walk (sorted_events : list event) (optimized_schedule : list placed)
         (cal : store) : res (list placed) * store :=
  match sorted_events with
  | [] => (Ok optimized_schedule, cal)
  | event :: rest =>
      let start_time := ev_start event in
      let end_time := ev_end event in
      match conflicts_with optimized_schedule start_time end_time with
      | _ :: _ =>
          match reschedule (ev_id event) start_time cal with
          | (Ok rescheduled, cal') =>
              optimize_walk rest
                (optimized_schedule ++
                   [{| pl_event := rescheduled;
                       pl_start_time := ev_start rescheduled;
                       pl_end_time := ev_end rescheduled |}]) cal'
          | (Raise ValueError, cal') =>
              optimize_walk rest (optimized_schedule ++ [keep_original event]) cal'
          | (Raise e, cal') => (Raise e, cal')
          | (Diverge, cal') => (Diverge, cal')
          end
      | [] => optimize_walk rest (optimized_schedule ++ [keep_original event]) cal
      end
  end.

End Walk.

Definition optimize_schedule (fuel : nat) (date : date_arg) (cal : store)
  : res (list placed) * store :=
  match get_daily_agenda cal date with
  | Ok events =>
      optimize_walk (reschedule_conflicts fuel) (sort_by_priority events) [] cal
  | Raise e => (Raise e, cal)
  | Diverge => (Diverge, cal)
  end.

(** The fields of [task] that [schedule_task] reads; [None] is an absent
    key.  [title] is read as [task['title']] and is a mandatory field
    here. *)
Record task : Type := {
  tk_title : string;
  tk_duration_minutes : option Z;
  tk_preferred_date : option Z;
  tk_priority : option string
}.

(** [today] is [datetime.now().date()], [now] is [datetime.now()]. *)
Definition schedule_task (fuel : nat) (today now : Z) (new_id : string)
           (cal : store) (t : task) : res event * store :=
  let duration_minutes :=
    default Settings.DEFAULT_EVENT_DURATION (tk_duration_minutes t) in
  let preferred_date := default today (tk_preferred_date t) in
  match find_free_slots fuel cal (PyDatetime (combine_min preferred_date))
                        duration_minutes with
  | Ok free_slots =>
      let retried :=
        match free_slots with
        | [] =>
            let next_date := preferred_date + 1 in
            find_free_slots fuel cal (PyDatetime (combine_min next_date))
                            duration_minutes
        | _ :: _ => Ok free_slots
        end in
      match retried with
      | Ok [] => (Raise ValueError, cal)
      | Ok (x :: rest) =>
          match _select_best_slot (x :: rest) (default "medium"%string (tk_priority t)) with
          | Ok selected_slot =>
              create_event now new_id cal
                {| ed_title := Some (tk_title t);
                   ed_start_time := Some (slot_start selected_slot);
                   ed_end_time := Some (slot_end selected_slot) |}
          | Raise e => (Raise e, cal)
          | Diverge => (Diverge, cal)
          end
      | Raise e => (Raise e, cal)
      | Diverge => (Diverge, cal)
      end
  | Raise e => (Raise e, cal)
  | Diverge => (Diverge, cal)
  end.

(** The fields of [block_data] that [create_time_block] reads; [None] is
    an absent key. *)
Record block_data : Type := {
  bd_title : option string;
  bd_start_time : option Z;
  bd_end_time : option Z
}.

Definition create_time_block (now : Z) (new_id : string) (cal : store)
           (block : block_data) : res event * store :=
  match bd_start_time block, bd_end_time block with
  | Some start_time, Some end_time =>
      match check_conflicts cal start_time end_time with
      | _ :: _ => (Raise ValueError, cal)
      | [] =>
          create_event now new_id cal
            {| ed_title := Some (default "Time Block"%string (bd_title block));
               ed_start_time := Some start_time;
               ed_end_time := Some end_time |}
      end
  | _, _ => (Raise ValueError, cal)
  end.

End SchedulerService.

Import SchedulerService.

(** ** [NLPService] ([nlp.py]): the fallback parser and the gap report

    Only the parts that compute with times are modelled; the calls to the
    language model, the regular-expression search and the rendering of
    text are not. *)

Module NLPService.

Inductive meridiem : Type := AM | PM.

(** The text that the patterns of [_fallback_parsing] capture for a time,
    [\d{1,2}(?::\d{2})? ?(?:AM|PM|am|pm)?] under [re.IGNORECASE]: one or two
    digits, then perhaps a colon and two digits, perhaps a space, perhaps a
    meridiem.  It is kept by its parts, the numbers being what [int] reads
    from the digits (0 to 99). *)
Record time_text : Type := {
  tt_hour : Z;
  tt_minute : option Z;
  tt_meridiem : option meridiem
}.

(** What a helper of the fallback parser does: it returns a [datetime] or
    raises. *)
Inductive parsed : Type :=
| Parsed (dt : Z)
| RaisesValueError
| RaisesKeyError.

(** The hour after the AM/PM step of [_parse_time]. *)
Definition clock_hour (t : time_text) : Z :=
  let hour := tt_hour t in
  match tt_meridiem t with
  | Some PM => if hour <? 12 then hour + 12 else hour
  | Some AM => if hour =? 12 then 0 else hour
  | None => hour
  end.

(** [_parse_time]: [today] is the date of [datetime.now()]; the
    constructor [datetime(year, month, day, hour, minute)] raises
    [ValueError] for an hour above 23 or a minute above 59. *)
Definition _parse_time (today : Z) (t : time_text) (days_ahead : Z) : parsed :=
  let hour := clock_hour t in
  let minute := default 0 (tt_minute t) in
  if (0 <=? hour) && (hour <=? 23) && (0 <=? minute) && (minute <=? 59)
  then Parsed (combine_min today + hour * hour_us + minute * minute_us
               + timedelta_days days_ahead)
  else RaisesValueError.



Definition weekdays : gmap string Z :=
  <["sunday" := 6]> (<["saturday" := 5]> (<["friday" := 4]> (<["thursday" := 3]>
  (<["wednesday" := 2]> (<["tuesday" := 1]> (<["monday" := 0]> ∅))))))%string.

Definition lower_ascii (c : Ascii.ascii) : Ascii.ascii :=
  let n := Ascii.nat_of_ascii c in
  if (65 <=? n)%nat && (n <=? 90)%nat then Ascii.ascii_of_nat (n + 32) else c.

(** [s.lower()] on the letters A to Z; a word with any other cased letter
    is no key of [weekdays] before or after lowering. *)
Fixpoint lower (s : string) : string :=
  match s with
  | EmptyString => EmptyString
  | String c rest => String (lower_ascii c) (lower rest)
  end.

(** [_parse_time_next_weekday]: [weekday_word] is the word captured after
    "next". *)
Definition _parse_time_next_weekday (today : Z) (weekday_word : string)
           (t : time_text) : parsed :=
  match weekdays !! lower weekday_word with
  | None => RaisesKeyError
  | Some target =>
      let days_ahead := (target - weekday today) mod 7 in
      let days_ahead := if days_ahead =? 0 then 7 else days_ahead in
      _parse_time today t days_ahead
  end.

(** An entry of [gaps] in [suggest_time_slots], without its [duration]. *)
Record gap : Type := {
  gap_start : Z;
  gap_end : Z
}.

(** Which of its three texts [suggest_time_slots] returns, and the gaps
    that the third one lists. *)
Inductive slot_report : Type :=
| NoEvents
| NoSuitableSlot
| AvailableSlots (gaps : list gap).

Section Gaps.

(** The test [gap_duration >= duration_minutes], where [gap_duration] is
    the floating-point number of minutes in the difference given. *)
Variable at_least : Z -> Z -> bool.

(** The loop [for i in range(len(busy_slots) - 1)]. *)
Fixpoint find_gaps (busy_slots : list slot) (duration_minutes : Z) : list gap :=
  match busy_slots with
  | current :: (next :: _) as rest =>
      let current_end := slot_end current in
      let next_start := slot_start next in
      (if at_least (next_start - current_end) duration_minutes
       then [{| gap_start := current_end; gap_end := next_start |}]
       else [])
      ++ find_gaps rest duration_minutes
  | _ => []
  end.

Definition suggest_time_slots (busy_slots : list slot) (duration_minutes : Z)
  : slot_report :=
  match busy_slots with
  | [] => NoEvents
  | _ :: _ =>
      match find_gaps busy_slots duration_minutes with
      | [] => NoSuitableSlot
      | g :: gaps => AvailableSlots (g :: gaps)
      end
  end.

End Gaps.

End NLPService.

Import NLPService.

(** ** Vocabulary of the statements *)

(** Half-open overlap of [a] and [b]: [a.start < b.end && b.start < a.end]. *)
Definition overlaps (a_start a_end b_start b_end : Z) : Prop :=
  a_start < b_end /\ b_start < a_end.

(** The candidate [[c, e)] runs into the busy slot [b]. *)
Definition blocks (c e : Z) (b : Z * Z) : Prop := overlaps c e (fst b) (snd b).

(** What a slot returned for the window [[start_time, end_time)] and the
    duration [duration_minutes] has to satisfy. *)
Definition slot_ok (start_time end_time duration_minutes : Z)
           (busy_slots : list (Z * Z)) (s : slot) : Prop :=
  slot_end s - slot_start s = timedelta_minutes duration_minutes /\
  start_time <= slot_start s /\
  slot_end s <= end_time /\
  Forall (fun b => ~ blocks (slot_start s) (slot_end s) b) busy_slots.

(** The busy slots are in start order, as the provider returns them. *)
Definition start_ordered (busy_slots : list (Z * Z)) : Prop :=
  StronglySorted (fun a b => fst a <= fst b) busy_slots.

(** The slots are in chronological order. *)
Definition chronological (slots : list slot) : Prop :=
  StronglySorted (fun a b => slot_start a <= slot_start b) slots.

(** An event of the examples. *)
Definition meeting (id : string) (start_time end_time : Z) : event :=
  {| ev_id := id; ev_summary := "meeting"; ev_start := start_time;
     ev_end := end_time; ev_priority := None |}.

(** Minutes as timestamps, for the examples. *)
Definition at_minute (m : Z) : Z := timedelta_minutes m.

(** [hh:mm] of day 0 as a timestamp, for the examples. *)
Definition clock (hh mm : Z) : Z := at_minute (60 * hh + mm).

(** The [i]-th slot of the tiling of a day by slots of [d] minutes. *)
Definition tile (start_time d : Z) (i : nat) : slot :=
  {| slot_start := start_time + Z.of_nat i * timedelta_minutes d;
     slot_end := start_time + (Z.of_nat i + 1) * timedelta_minutes d |}.

(** The tiling of the day from [start_time] by slots of [d] minutes. *)
Definition tiling (start_time d : Z) : list slot :=
  List.map (tile start_time d) (List.seq 0 (Z.to_nat (1440 / d))).

(** Every slot ends before the slots after it start. *)
Definition packed (slots : list slot) : Prop :=
  StronglySorted (fun a b => slot_end a <= slot_start b) slots.

(** The intervals of two events overlap. *)
Definition events_overlap (a b : event) : Prop :=
  overlaps (ev_start a) (ev_end a) (ev_start b) (ev_end b).

(** No two events of the list overlap. *)
Definition disjoint_events (events : list event) : Prop :=
  ForallOrdPairs (fun a b => ~ events_overlap a b) events.

(** No stored event overlaps the interval [[s, e)]. *)
Definition free_in (cal : store) (s e : Z) : Prop :=
  Forall (fun x => ~ overlaps s e (ev_start x) (ev_end x)) cal.

(** The stored events have distinct ids. *)
Definition unique_ids (cal : store) : Prop := List.NoDup (List.map ev_id cal).

(** ** The free-slot scan *)

Lemma timedelta_minutes_eq m : timedelta_minutes m = m * 60000000.
Proof. unfold timedelta_minutes, minute_us, second_us. lia. Qed.

Lemma timedelta_day_eq : timedelta_days 1 = 1440 * 60000000.
Proof. reflexivity. Qed.

Lemma first_busy_end_None c e busy :
  first_busy_end c e busy = None <-> Forall (fun b => ~ blocks c e b) busy.
Proof.
  induction busy as [|[bs be] rest IH]; simpl.
  - split; [constructor | reflexivity].
  - destruct (c <? be) eqn:H1; destruct (e >? bs) eqn:H2; simpl;
      rewrite ?Z.ltb_lt, ?Z.ltb_ge, ?Z.gtb_gt in *;
      try (rewrite Z.gtb_ltb, Z.ltb_ge in H2).
    + split; [discriminate|].
      intros HF. inversion HF as [|? ? Hb _]; subst.
      exfalso. apply Hb. unfold blocks, overlaps. simpl. lia.
    + rewrite IH. split.
      * intros HF. constructor; [|exact HF].
        unfold blocks, overlaps. simpl. lia.
      * intros HF. inversion HF; subst. assumption.
    + rewrite IH. split.
      * intros HF. constructor; [|exact HF].
        unfold blocks, overlaps. simpl. lia.
      * intros HF. inversion HF; subst. assumption.
    + rewrite IH. split.
      * intros HF. constructor; [|exact HF].
        unfold blocks, overlaps. simpl. lia.
      * intros HF. inversion HF; subst. assumption.
Qed.

Lemma first_busy_end_Some c e busy busy_end :
  first_busy_end c e busy = Some busy_end ->
  exists pre busy_start post,
    busy = pre ++ (busy_start, busy_end) :: post /\
    blocks c e (busy_start, busy_end) /\
    Forall (fun b => ~ blocks c e b) pre.
Proof.
  induction busy as [|[bs be] rest IH]; simpl; [discriminate|].
  destruct ((c <? be) && (e >? bs)) eqn:Hc.
  - intros [= <-]. exists [], bs, rest.
    apply andb_true_iff in Hc as [H1 H2].
    apply Z.ltb_lt in H1. apply Z.gtb_gt in H2.
    repeat split; simpl; try lia. constructor.
  - intros H. destruct (IH H) as (pre & s & post & -> & Hb & Hpre).
    exists ((bs, be) :: pre), s, post. repeat split; try apply Hb.
    constructor; [|exact Hpre].
    unfold blocks, overlaps; simpl. intros [H1 H2].
    apply andb_false_iff in Hc as [Hc|Hc].
    + apply Z.ltb_ge in Hc. lia.
    + rewrite Z.gtb_ltb in Hc. apply Z.ltb_ge in Hc. lia.
Qed.

Lemma first_busy_end_blocked c e busy :
  Exists (blocks c e) busy -> exists busy_end, first_busy_end c e busy = Some busy_end.
Proof.
  intros HE. destruct (first_busy_end c e busy) as [be|] eqn:H; [eauto|].
  apply first_busy_end_None in H. exfalso.
  apply Exists_exists in HE as (b & Hin & Hb).
  rewrite Forall_forall in H. exact (H b Hin Hb).
Qed.

(** The three ways a turn of the loop ends. *)
Lemma scan_step_cases end_time d busy free_slots c :
  let e := c + timedelta_minutes d in
  (scan_step end_time d busy (free_slots, c) = None /\ (end_time <= c \/ end_time < e)) \/
  (exists busy_end,
      first_busy_end c e busy = Some busy_end /\ c < end_time /\ e <= end_time /\
      scan_step end_time d busy (free_slots, c)
      = Some (free_slots, busy_end + timedelta_minutes 15)) \/
  (first_busy_end c e busy = None /\ c < end_time /\ e <= end_time /\
   scan_step end_time d busy (free_slots, c)
   = Some (free_slots ++ [{| slot_start := c; slot_end := e |}], e)).
Proof.
  intros e. unfold scan_step. fold e.
  destruct (c <? end_time) eqn:H1.
  - apply Z.ltb_lt in H1.
    destruct (e >? end_time) eqn:H2.
    + apply Z.gtb_gt in H2. left. split; [reflexivity | lia].
    + rewrite Z.gtb_ltb in H2. apply Z.ltb_ge in H2.
      destruct (first_busy_end c e busy) as [be|] eqn:H3.
      * right. left. exists be. repeat split; assumption.
      * right. right. repeat split; assumption.
  - apply Z.ltb_ge in H1. left. split; [reflexivity | lia].
Qed.

(** Every turn that does not leave the loop moves the cursor forward by a
    minute at least, when the duration is positive. *)
Lemma scan_step_advances end_time d busy st free_slots' c' :
  0 < d ->
  scan_step end_time d busy st = Some (free_slots', c') ->
  snd st + 60000000 <= c'.
Proof.
  intros Hd. destruct st as [fs c]. cbn [snd].
  destruct (scan_step_cases end_time d busy fs c)
    as [[H _] | [(be & Hb & _ & _ & H) | (_ & _ & _ & H)]];
    rewrite H; [discriminate| |]; intros [= <- <-].
  - apply first_busy_end_Some in Hb as (pre & bs & post & _ & [Hlt _] & _).
    simpl in Hlt. rewrite timedelta_minutes_eq. lia.
  - rewrite timedelta_minutes_eq. nia.
Qed.

Lemma scan_terminates end_time d busy :
  0 < d ->
  forall (n : nat) st,
    end_time - snd st <= Z.of_nat n * 60000000 ->
    exists slots, scan (S n) end_time d busy st = Ok slots.
Proof.
  intros Hd. induction n as [|n IH]; intros st Hm.
  - destruct st as [fs c]. simpl in Hm.
    destruct (scan_step_cases end_time d busy fs c)
      as [[H _] | [(be & _ & Hlt & _ & _) | (_ & Hlt & _ & _)]]; try lia.
    cbn [scan fst]. rewrite H. eauto.
  - change (scan (S (S n)) end_time d busy st)
      with (match scan_step end_time d busy st with
            | None => Ok (fst st)
            | Some st' => scan (S n) end_time d busy st'
            end).
    destruct (scan_step end_time d busy st) as [[fs' c']|] eqn:Hs; [|eauto].
    apply IH. simpl.
    pose proof (scan_step_advances _ _ _ _ _ _ Hd Hs). lia.
Qed.

Lemma scan_more_fuel end_time d busy slots :
  forall (n : nat) st,
    scan n end_time d busy st = Ok slots ->
    forall m : nat, (n <= m)%nat -> scan m end_time d busy st = Ok slots.
Proof.
  induction n as [|n IH]; intros st H m Hm; [discriminate|].
  destruct m as [|m]; [lia|].
  simpl in *. destruct (scan_step end_time d busy st) as [st'|]; [|exact H].
  apply IH; [exact H | lia].
Qed.

Lemma scan_never_raises end_time d busy e :
  forall (n : nat) st, scan n end_time d busy st <> Raise e.
Proof.
  induction n as [|n IH]; intros st; simpl; [discriminate|].
  destruct (scan_step end_time d busy st) as [st'|]; [apply IH | discriminate].
Qed.

Lemma scan_sound start_time end_time d busy :
  0 < d ->
  forall (n : nat) free_slots c slots,
    start_time <= c ->
    Forall (slot_ok start_time end_time d busy) free_slots ->
    scan n end_time d busy (free_slots, c) = Ok slots ->
    Forall (slot_ok start_time end_time d busy) slots.
Proof.
  intros Hd. induction n as [|n IH]; intros fs c slots Hc Hfs; [discriminate|].
  cbn [scan fst].
  destruct (scan_step_cases end_time d busy fs c)
    as [[H _] | [(be & Hb & _ & _ & H) | (Hfree & Hlt & Hfit & H)]]; rewrite H.
  - intros [= <-]. exact Hfs.
  - apply IH; [|exact Hfs].
    apply first_busy_end_Some in Hb as (pre & bs & post & _ & [Hlt _] & _).
    simpl in Hlt. rewrite timedelta_minutes_eq. lia.
  - apply IH.
    + rewrite timedelta_minutes_eq. nia.
    + apply Forall_app. split; [exact Hfs|].
      constructor; [|constructor].
      unfold slot_ok; simpl. repeat split; try lia.
      apply first_busy_end_None. exact Hfree.
Qed.

Lemma find_free_slots_datetime fuel cal dt d :
  find_free_slots fuel cal (PyDatetime dt) d
  = let start_time := dt - time_of dt in
    free_slots_of fuel start_time d
      (busy_of (events_list cal start_time (start_time + timedelta_days 1))).
Proof. reflexivity. Qed.

Lemma free_slots_of_total start_time d busy :
  0 < d ->
  exists slots,
    forall fuel : nat, (1441 <= fuel)%nat -> free_slots_of fuel start_time d busy = Ok slots.
Proof.
  intros Hd. unfold free_slots_of.
  destruct (scan_terminates (start_time + timedelta_days 1) d busy Hd
                            1440 ([], start_time)) as [slots H].
  - rewrite timedelta_day_eq. simpl. lia.
  - exists slots. intros fuel Hf.
    exact (scan_more_fuel _ _ _ _ _ _ H fuel Hf).
Qed.

Lemma start_ordered_first_blocker (P : Z * Z -> Prop) pre x post :
  start_ordered (pre ++ x :: post) ->
  Forall (fun b => ~ P b) pre ->
  Forall (fun b => P b -> fst x <= fst b) (pre ++ x :: post).
Proof.
  unfold start_ordered. induction pre as [|p pre IH]; simpl; intros Hs Hpre.
  - apply StronglySorted_inv in Hs as [_ Hall].
    constructor; [lia|].
    eapply List.Forall_impl; [|exact Hall]. simpl. intros b Hb _. exact Hb.
  - apply StronglySorted_inv in Hs as [Hs _].
    inversion Hpre as [|? ? Hp Hpre']; subst.
    constructor; [intros HP; contradiction | apply IH; assumption].
Qed.

(** C1.  For every busy list and every duration [D > 0] the scan of
    [find_free_slots] over a day window returns (1441 turns are enough), and
    every slot it returns has length [D], starts at or after the window
    start, ends at or before the window start plus 24 hours, and overlaps
    no busy slot under the half-open test. *)
Theorem find_free_slots_sound (start_time duration_minutes : Z)
        (busy_slots : list (Z * Z)) :
  0 < duration_minutes ->
  (exists slots,
      free_slots_of 1441 start_time duration_minutes busy_slots = Ok slots) /\
  (forall (fuel : nat) slots,
      free_slots_of fuel start_time duration_minutes busy_slots = Ok slots ->
      Forall (fun s =>
                slot_end s - slot_start s = timedelta_minutes duration_minutes /\
                start_time <= slot_start s /\
                slot_end s <= start_time + timedelta_days 1 /\
                Forall (fun b => ~ overlaps (slot_start s) (slot_end s) (fst b) (snd b))
                       busy_slots)
             slots) /\
  (forall (fuel : nat) cal dt slots,
      find_free_slots fuel cal (PyDatetime dt) duration_minutes = Ok slots ->
      let midnight := dt - time_of dt in
      Forall (fun s =>
                slot_end s - slot_start s = timedelta_minutes duration_minutes /\
                midnight <= slot_start s /\
                slot_end s <= midnight + timedelta_days 1 /\
                Forall (fun e => ~ overlaps (slot_start s) (slot_end s)
                                    (ev_start e) (ev_end e))
                       (events_list cal midnight (midnight + timedelta_days 1)))
             slots).
Proof.
  intros Hd. split; [|split].
  - destruct (free_slots_of_total start_time duration_minutes busy_slots Hd)
      as [slots H].
    exists slots. apply H. lia.
  - intros fuel slots H.
    apply (scan_sound start_time _ _ _ Hd fuel [] start_time slots);
      [lia | constructor | exact H].
  - intros fuel cal dt slots H midnight.
    rewrite find_free_slots_datetime in H. fold midnight in H. cbv zeta in H.
    pose proof (scan_sound midnight _ _ _ Hd fuel [] midnight slots
                           (Z.le_refl _) (List.Forall_nil _) H) as Hall.
    eapply List.Forall_impl; [|exact Hall].
    intros s (Hlen & Hlo & Hhi & Hfree). repeat split; try assumption.
    unfold busy_of in Hfree. rewrite List.Forall_map in Hfree. exact Hfree.
Qed.

Lemma find_free_slots_sound_witness :
  exists slots,
    free_slots_of 1441 0 60 [(clock 0 30, clock 1 30)] = Ok slots /\
    Forall (fun s => slot_end s - slot_start s = timedelta_minutes 60) slots.
Proof.
  destruct (find_free_slots_sound 0 60 [(clock 0 30, clock 1 30)])
    as ([slots H] & Hall & _); [lia|].
  exists slots. split; [exact H|].
  eapply List.Forall_impl; [|exact (Hall _ _ H)].
  intros s Hs. exact (proj1 Hs).
Defined.

(** C7.  For every busy list and every duration strictly greater than
    zero the scan terminates: a turn of the loop that goes on moves the
    cursor strictly forward (by the duration after a free candidate, to 15
    minutes past the end of the blocking slot after a conflict), the loop
    is left exactly when a full duration no longer fits before the window
    end, and from 1441 turns on the scan returns one finite list. *)
Theorem find_free_slots_terminates (start_time duration_minutes : Z)
        (busy_slots : list (Z * Z)) :
  0 < duration_minutes ->
  let end_time := start_time + timedelta_days 1 in
  (forall free_slots c free_slots' c',
      scan_step end_time duration_minutes busy_slots (free_slots, c)
      = Some (free_slots', c') ->
      c < c' /\
      ((first_busy_end c (c + timedelta_minutes duration_minutes) busy_slots = None /\
        c' = c + timedelta_minutes duration_minutes) \/
       (exists busy_end,
           first_busy_end c (c + timedelta_minutes duration_minutes) busy_slots
           = Some busy_end /\
           c < busy_end /\ c + timedelta_minutes 15 < c' /\
           c' = busy_end + timedelta_minutes 15))) /\
  (forall free_slots c,
      scan_step end_time duration_minutes busy_slots (free_slots, c) = None <->
      end_time < c + timedelta_minutes duration_minutes) /\
  (exists slots,
      forall fuel : nat, (1441 <= fuel)%nat ->
        free_slots_of fuel start_time duration_minutes busy_slots = Ok slots) /\
  (forall cal dt,
      exists slots,
        forall fuel : nat, (1441 <= fuel)%nat ->
          find_free_slots fuel cal (PyDatetime dt) duration_minutes = Ok slots).
Proof.
  intros Hd end_time. split; [|split; [|split]].
  - intros fs c fs' c' Hs.
    pose proof (scan_step_advances _ _ _ _ _ _ Hd Hs) as Hadv. simpl in Hadv.
    split; [lia|].
    destruct (scan_step_cases end_time duration_minutes busy_slots fs c)
      as [[H _] | [(be & Hb & _ & _ & H) | (Hfree & _ & _ & H)]];
      rewrite H in Hs; [discriminate| |]; injection Hs as <- <-.
    + right. exists be. split; [exact Hb|].
      apply first_busy_end_Some in Hb as (pre & bs & post & _ & [Hlt _] & _).
      simpl in Hlt. rewrite !timedelta_minutes_eq. lia.
    + left. split; [exact Hfree | reflexivity].
  - intros fs c.
    destruct (scan_step_cases end_time duration_minutes busy_slots fs c)
      as [[H Hex] | [(be & _ & Hlt & Hfit & H) | (_ & Hlt & Hfit & H)]];
      rewrite H; rewrite !timedelta_minutes_eq in *.
    + split; [intros _; destruct Hex; lia | reflexivity].
    + split; [discriminate | lia].
    + split; [discriminate | lia].
  - apply free_slots_of_total. exact Hd.
  - intros cal dt.
    destruct (free_slots_of_total
                (dt - time_of dt) duration_minutes
                (busy_of (events_list cal (dt - time_of dt)
                                      (dt - time_of dt + timedelta_days 1))) Hd)
      as [slots H].
    exists slots. intros fuel Hf. rewrite find_free_slots_datetime. apply H. exact Hf.
Qed.

Lemma find_free_slots_terminates_witness :
  exists slots, free_slots_of 1441 0 60 [(clock 9 0, clock 10 0)] = Ok slots.
Proof.
  destruct (find_free_slots_terminates 0 60 [(clock 9 0, clock 10 0)])
    as (_ & _ & [slots H] & _); [lia|].
  exists slots. apply H. lia.
Defined.

(** C2, as stated, fails: with the cursor at 00:00, a duration of 60
    minutes and the busy slot [00:30, 01:30), the next cursor is 01:45, not
    [max(00:15, 01:30) = 01:30]. *)
Lemma cursor_after_conflict_counterexample :
  first_busy_end 0 (0 + timedelta_minutes 60) [(clock 0 30, clock 1 30)]
  = Some (clock 1 30) /\
  scan_step (timedelta_days 1) 60 [(clock 0 30, clock 1 30)] ([], 0)
  = Some ([], clock 1 45) /\
  clock 1 45 <> Z.max (0 + timedelta_minutes 15) (clock 1 30).
Proof. repeat split. discriminate. Qed.

(** C2, amended.  Whenever the candidate [[cursor, cursor + duration)]
    fits in the window and overlaps a busy slot, the cursor advances to
    exactly [blockingEnd + 15 minutes], where [blockingEnd] is the end of
    the first intersecting busy slot in list order (the one of earliest
    start when the list is in start order); this is strictly later than
    [max(cursor + 15 minutes, blockingEnd)]. *)
Theorem cursor_after_conflict (end_time duration_minutes : Z)
        (busy_slots : list (Z * Z)) (free_slots : list slot) (cursor : Z) :
  let slot_end := cursor + timedelta_minutes duration_minutes in
  cursor < end_time ->
  slot_end <= end_time ->
  Exists (fun b => overlaps cursor slot_end (fst b) (snd b)) busy_slots ->
  exists pre blocking_start blocking_end post,
    busy_slots = pre ++ (blocking_start, blocking_end) :: post /\
    Forall (fun b => ~ overlaps cursor slot_end (fst b) (snd b)) pre /\
    overlaps cursor slot_end blocking_start blocking_end /\
    (start_ordered busy_slots ->
     Forall (fun b => overlaps cursor slot_end (fst b) (snd b) -> blocking_start <= fst b)
            busy_slots) /\
    scan_step end_time duration_minutes busy_slots (free_slots, cursor)
    = Some (free_slots, blocking_end + timedelta_minutes 15) /\
    Z.max (cursor + timedelta_minutes 15) blocking_end
    < blocking_end + timedelta_minutes 15.
Proof.
  intros slot_end Hlt Hfit Hex.
  destruct (first_busy_end_blocked cursor slot_end busy_slots Hex) as [be Hbe].
  destruct (first_busy_end_Some _ _ _ _ Hbe) as (pre & bs & post & Heq & Hb & Hpre).
  exists pre, bs, be, post. split; [exact Heq|]. split; [exact Hpre|].
  split; [exact Hb|]. split; [|split].
  - intros Hs. rewrite Heq in Hs |- *.
    exact (start_ordered_first_blocker (blocks cursor slot_end) pre (bs, be) post Hs Hpre).
  - destruct (scan_step_cases end_time duration_minutes busy_slots free_slots cursor)
      as [[_ Hout] | [(be' & Hb' & _ & _ & H) | (Hfree & _ & _ & _)]].
    + fold slot_end in Hout. lia.
    + fold slot_end in Hb'. rewrite Hbe in Hb'. injection Hb' as <-. exact H.
    + fold slot_end in Hfree. rewrite Hbe in Hfree. discriminate.
  - destruct Hb as [Hc _]. simpl in Hc. rewrite timedelta_minutes_eq. lia.
Qed.

Lemma cursor_after_conflict_witness :
  exists blocking_end,
    scan_step (timedelta_days 1) 60 [(clock 0 30, clock 1 30)] ([], 0)
    = Some ([], blocking_end + timedelta_minutes 15).
Proof.
  destruct (cursor_after_conflict (timedelta_days 1) 60 [(clock 0 30, clock 1 30)] [] 0)
    as (pre & bs & be & post & _ & _ & _ & _ & H & _).
  - reflexivity.
  - discriminate.
  - constructor. split; reflexivity.
  - exists be. exact H.
Defined.

Lemma scan_zero_duration end_time :
  forall (n : nat) free_slots c,
    c < end_time -> scan n end_time 0 [] (free_slots, c) = Diverge.
Proof.
  induction n as [|n IH]; intros fs c Hc; [reflexivity|].
  cbn [scan]. unfold scan_step.
  change (timedelta_minutes 0) with 0. rewrite Z.add_0_r.
  rewrite (proj2 (Z.ltb_lt c end_time) Hc).
  destruct (c >? end_time) eqn:Hgt; [apply Z.gtb_gt in Hgt; lia|].
  cbn [first_busy_end]. apply IH. exact Hc.
Qed.

Lemma find_free_slots_zero_empty (fuel : nat) dt :
  find_free_slots fuel [] (PyDatetime dt) 0 = Diverge.
Proof.
  rewrite find_free_slots_datetime. cbv zeta.
  change (events_list [] (dt - time_of dt) (dt - time_of dt + timedelta_days 1))
    with (@nil event).
  apply scan_zero_duration. rewrite timedelta_day_eq. lia.
Qed.

Lemma routine_days_first_diverges fuel cal d preferred dow (days : nat) cur acc :
  existsb (Z.eqb (weekday cur)) dow = true ->
  find_free_slots fuel cal (PyDatetime (combine_min cur)) d = Diverge ->
  routine_days fuel cal d preferred dow (S days) cur acc = Diverge.
Proof. intros H1 H2. cbn [routine_days]. rewrite H1, H2. reflexivity. Qed.

(** C6.  [find_free_slots] has no guard on the duration: called with a
    [datetime] it never raises, whatever the duration; with a duration of
    0 on an empty calendar the loop never ends, and with a duration of 0
    and one event over the whole day it returns the empty list.  The hang
    is reached from [suggest_routine_times] with [duration_minutes = 0]. *)
Theorem find_free_slots_nonpositive_duration :
  (forall (fuel : nat) cal dt d e,
      find_free_slots fuel cal (PyDatetime dt) d <> Raise e) /\
  (forall (fuel : nat) dt, find_free_slots fuel [] (PyDatetime dt) 0 = Diverge) /\
  find_free_slots 2 [{| ev_id := "e1"; ev_summary := "all day";
                        ev_start := at_minute (-60); ev_end := at_minute 1500;
                        ev_priority := None |}] (PyDatetime 0) 0 = Ok [] /\
  (forall fuel : nat,
      suggest_routine_times fuel [] 1
        {| rd_duration_minutes := Some 0; rd_preferred_time := VNone;
           rd_days_of_week := None |} = Diverge).
Proof.
  split; [|split; [|split]].
  - intros fuel cal dt d e. rewrite find_free_slots_datetime.
    apply scan_never_raises.
  - apply find_free_slots_zero_empty.
  - reflexivity.
  - intros fuel. unfold suggest_routine_times.
    apply routine_days_first_diverges; [reflexivity|].
    apply find_free_slots_zero_empty.
Qed.

(** C4.  The routine selection does not return: the key
    [abs(x['start'].time() - preferred_time)] subtracts from a
    [datetime.time], which raises [TypeError], so for every non-empty slot
    list and every preferred time that counts as set the selection raises;
    in particular for the target 23:30 and the slots starting 00:15 and
    23:00. *)
Theorem select_routine_slot_raises :
  (forall preferred_time x rest,
      select_routine_slot preferred_time (x :: rest)
      = if truthy preferred_time then Raise TypeError else Ok x) /\
  (forall us x rest, select_routine_slot (VTime us) (x :: rest) = Raise TypeError) /\
  select_routine_slot (VTime (time_of (clock 23 30)))
    [{| slot_start := clock 0 15; slot_end := clock 1 15 |};
     {| slot_start := clock 23 0; slot_end := clock 24 0 |}]
  = Raise TypeError.
Proof.
  split; [|split]; [|reflexivity|reflexivity].
  intros v x rest. unfold select_routine_slot.
  destruct (truthy v); [|reflexivity].
  unfold min_by, time_of_day_key. destruct v; reflexivity.
Qed.

Lemma filter_first {A} (f : A -> bool) (l : list A) m r :
  List.filter f l = m :: r ->
  exists pre post,
    l = pre ++ m :: post /\ Forall (fun x => f x = false) pre /\ f m = true.
Proof.
  induction l as [|x l IH]; simpl; [discriminate|].
  destruct (f x) eqn:Hx.
  - intros [= <- _]. exists [], l. repeat split; [constructor | exact Hx].
  - intros H. destruct (IH H) as (pre & post & -> & Hpre & Hm).
    exists (x :: pre), post. repeat split; [constructor; assumption | exact Hm].
Qed.

Lemma filter_nil_none {A} (f : A -> bool) (l : list A) :
  List.filter f l = [] -> Forall (fun x => f x = false) l.
Proof.
  induction l as [|x l IH]; simpl; [constructor|].
  destruct (f x) eqn:Hx; [discriminate|]. intros H. constructor; auto.
Qed.

Lemma chronological_split pre m post :
  chronological (pre ++ m :: post) ->
  Forall (fun s => slot_start m <= slot_start s) (m :: post).
Proof.
  unfold chronological. induction pre as [|p pre IH]; simpl; intros Hs.
  - apply StronglySorted_inv in Hs as [_ Hall]. constructor; [lia | exact Hall].
  - apply StronglySorted_inv in Hs as [Hs _]. apply IH. exact Hs.
Qed.

(** C9.  For every non-empty chronologically ordered slot list: for the
    priorities 'high' and 'urgent' [_select_best_slot] returns the earliest
    slot whose start hour is before 12 (the first such slot of the list),
    or the first slot of the list when no slot starts before 12; for every
    other priority it returns the first slot of the list. *)
Theorem select_best_slot_policy (first : slot) (rest : list slot) (priority : string) :
  chronological (first :: rest) ->
  let slots := first :: rest in
  let morning s := hour_of (slot_start s) < 12 in
  ((priority = "high" \/ priority = "urgent")%string ->
   (Exists morning slots ->
    exists pre m post,
      _select_best_slot slots priority = Ok m /\
      slots = pre ++ m :: post /\
      Forall (fun s => ~ morning s) pre /\
      morning m /\
      Forall (fun s => morning s -> slot_start m <= slot_start s) slots) /\
   (~ Exists morning slots -> _select_best_slot slots priority = Ok first)) /\
  (priority <> "high"%string -> priority <> "urgent"%string ->
   _select_best_slot slots priority = Ok first).
Proof.
  intros Hs slots morning.
  assert (Hm : forall s, is_morning s = true <-> morning s)
    by (intros s; unfold is_morning, morning; apply Z.ltb_lt).
  assert (Hn : forall s, is_morning s = false <-> ~ morning s).
  { intros s. rewrite <- Hm. destruct (is_morning s); split; congruence. }
  split.
  - intros Hp.
    assert (Hb : (String.eqb priority "high" || String.eqb priority "urgent")%string
                 = true).
    { destruct Hp as [-> | ->]; reflexivity. }
    unfold _select_best_slot. rewrite Hb.
    destruct (List.filter is_morning slots) as [|m r] eqn:Hf.
    + apply filter_nil_none in Hf. split.
      * intros HE. exfalso. apply Exists_exists in HE as (s & Hin & Hms).
        rewrite Forall_forall in Hf. apply (proj1 (Hn s)); auto.
      * intros _. reflexivity.
    + apply filter_first in Hf as (pre & post & Heq & Hpre & Hmm). split.
      * intros _. exists pre, m, post. split; [reflexivity|]. split; [exact Heq|].
        split; [|split].
        -- eapply List.Forall_impl; [|exact Hpre]. intros s. apply Hn.
        -- apply Hm. exact Hmm.
        -- rewrite Heq. apply Forall_app. split.
           ++ eapply List.Forall_impl; [|exact Hpre].
              intros s Hfalse Hmorn. apply Hn in Hfalse. contradiction.
           ++ unfold slots in Heq. rewrite Heq in Hs.
              eapply List.Forall_impl; [|exact (chronological_split _ _ _ Hs)].
              intros s Hle _. exact Hle.
      * intros HnE. exfalso. apply HnE. rewrite Heq.
        apply Exists_app. right. constructor. apply Hm. exact Hmm.
  - intros H1 H2. unfold _select_best_slot.
    apply String.eqb_neq in H1, H2. rewrite H1, H2. reflexivity.
Qed.

Lemma select_best_slot_policy_witness :
  _select_best_slot [{| slot_start := clock 9 0; slot_end := clock 10 0 |};
                     {| slot_start := clock 14 0; slot_end := clock 15 0 |}] "low"
  = Ok {| slot_start := clock 9 0; slot_end := clock 10 0 |} /\
  _select_best_slot [{| slot_start := clock 14 0; slot_end := clock 15 0 |};
                     {| slot_start := clock 16 0; slot_end := clock 17 0 |}] "urgent"
  = Ok {| slot_start := clock 14 0; slot_end := clock 15 0 |} /\
  (exists m,
      _select_best_slot [{| slot_start := clock 9 0; slot_end := clock 10 0 |};
                         {| slot_start := clock 14 0; slot_end := clock 15 0 |}] "urgent"
      = Ok m /\ hour_of (slot_start m) < 12).
Proof.
  assert (Hs1 : chronological [{| slot_start := clock 9 0; slot_end := clock 10 0 |};
                               {| slot_start := clock 14 0; slot_end := clock 15 0 |}])
    by (repeat constructor; discriminate).
  assert (Hs2 : chronological [{| slot_start := clock 14 0; slot_end := clock 15 0 |};
                               {| slot_start := clock 16 0; slot_end := clock 17 0 |}])
    by (repeat constructor; discriminate).
  split; [|split].
  - apply (proj2 (select_best_slot_policy _ _ "low" Hs1)); discriminate.
  - apply (proj2 (proj1 (select_best_slot_policy _ _ "urgent" Hs2)
                        (or_intror eq_refl))).
    intros HE. apply Exists_cons in HE as [H | HE]; [vm_compute in H; discriminate H|].
    apply Exists_cons in HE as [H | HE]; [vm_compute in H; discriminate H|].
    apply Exists_nil in HE. exact HE.
  - destruct (proj1 (proj1 (select_best_slot_policy _ _ "urgent" Hs1)
                           (or_intror eq_refl)))
      as (pre & m & post & Hsel & _ & _ & Hm & _).
    + constructor. reflexivity.
    + exists m. split; [exact Hsel | exact Hm].
Defined.

Lemma enumerate_into_absent (label : string) :
  forall levels (i : nat) (m : gmap string nat),
    ~ In label levels -> enumerate_into levels i m !! label = m !! label.
Proof.
  induction levels as [|p levels IH]; intros i m Hn; simpl; [reflexivity|].
  rewrite IH by (intros Hin; apply Hn; right; exact Hin).
  apply lookup_insert_ne. intros ->. apply Hn. left. reflexivity.
Qed.

(** C8.  In the priority sort of [optimize_schedule] every event whose
    priority label is not in the configured list ("low", "medium", "high",
    "urgent") gets rank 0 from the default of the rank lookup, which is the
    rank of "low", the first entry of the list. *)
Theorem unknown_priority_rank (x : event) (label : string) :
  ev_priority x = Some label ->
  ~ In label Settings.PRIORITY_LEVELS ->
  priority_order !! label = None /\
  priority_rank x = 0%nat /\
  head Settings.PRIORITY_LEVELS = Some "low"%string /\
  priority_order !! "low"%string = Some 0%nat /\
  (forall y, ev_priority y = Some "low"%string -> priority_rank y = priority_rank x).
Proof.
  intros Hx Hn.
  assert (Hl : priority_order !! label = None).
  { unfold priority_order. rewrite enumerate_into_absent by exact Hn.
    apply lookup_empty. }
  assert (Hr : priority_rank x = 0%nat).
  { unfold priority_rank. rewrite Hx.
    change (default "medium"%string (Some label)) with label.
    rewrite Hl. reflexivity. }
  split; [exact Hl|]. split; [exact Hr|]. split; [reflexivity|].
  split; [reflexivity|].
  intros y Hy. rewrite Hr. unfold priority_rank. rewrite Hy. reflexivity.
Qed.

Lemma unknown_priority_rank_witness :
  priority_rank {| ev_id := "e1"; ev_summary := "stand-up"; ev_start := clock 9 0;
                   ev_end := clock 9 30; ev_priority := Some "critical"%string |}
  = 0%nat.
Proof.
  refine (proj1 (proj2 (unknown_priority_rank
                          {| ev_id := "e1"; ev_summary := "stand-up";
                             ev_start := clock 9 0; ev_end := clock 9 30;
                             ev_priority := Some "critical"%string |}
                          "critical" eq_refl _))).
  intros H. repeat (destruct H as [H|H]; [discriminate H|]). exact H.
Defined.

(** ** Routine suggestions *)

Lemma routine_days_dates fuel cal d preferred dow :
  forall (days : nat) cur acc out,
    routine_days fuel cal d preferred dow days cur acc = Ok out ->
    exists new,
      out = acc ++ new /\
      Forall (fun s => existsb (Z.eqb (weekday (sg_date s))) dow = true /\
                       cur <= sg_date s < cur + Z.of_nat days) new.
Proof.
  induction days as [|days IH]; intros cur acc out H.
  - injection H as <-. exists []. split; [symmetry; apply app_nil_r | constructor].
  - cbn [routine_days] in H.
    assert (Hnext : forall acc',
               routine_days fuel cal d preferred dow days (cur + 1) acc' = Ok out ->
               exists new,
                 out = acc' ++ new /\
                 Forall (fun s => existsb (Z.eqb (weekday (sg_date s))) dow = true /\
                                  cur <= sg_date s < cur + Z.of_nat (S days)) new).
    { intros acc' H'. destruct (IH _ _ _ H') as (new & -> & Hall).
      exists new. split; [reflexivity|].
      eapply List.Forall_impl; [|exact Hall]. simpl. intros s [Hs Hr]. split; [exact Hs | lia]. }
    destruct (existsb (Z.eqb (weekday cur)) dow) eqn:Hday; [|apply Hnext; exact H].
    destruct (find_free_slots fuel cal (PyDatetime (combine_min cur)) d)
      as [free_slots| |]; cbn [bind_res] in H; try discriminate.
    destruct free_slots as [|x rest]; [apply Hnext; exact H|].
    destruct (select_routine_slot preferred (x :: rest)) as [best| |];
      cbn [bind_res] in H; try discriminate.
    destruct (Hnext _ H) as (new & -> & Hall).
    eexists (_ :: new). split; [rewrite <- app_assoc; reflexivity|].
    constructor; [|exact Hall].
    cbn [sg_date]. split; [exact Hday | lia].
Qed.

(** C10.  When a routine request omits [days_of_week],
    [suggest_routine_times] runs as with [[0, 1, 2, 3, 4]] (Monday to
    Friday): every suggestion it returns is for one of the 7 days from
    today on and for a weekday from 0 to 4, never for a Saturday (5) or a
    Sunday (6). *)
Theorem routine_default_weekdays (fuel : nat) (cal : store) (today : Z)
        (routine : routine_data) (suggestions : list suggestion) :
  rd_days_of_week routine = None ->
  suggest_routine_times fuel cal today routine = Ok suggestions ->
  suggest_routine_times fuel cal today
    {| rd_duration_minutes := rd_duration_minutes routine;
       rd_preferred_time := rd_preferred_time routine;
       rd_days_of_week := Some [0; 1; 2; 3; 4] |} = Ok suggestions /\
  Forall (fun s => today <= sg_date s < today + 7 /\
                   0 <= weekday (sg_date s) <= 4 /\
                   weekday (sg_date s) <> 5 /\
                   weekday (sg_date s) <> 6) suggestions.
Proof.
  intros Hnone H. split.
  - rewrite <- H. unfold suggest_routine_times. rewrite Hnone. reflexivity.
  - unfold suggest_routine_times in H. rewrite Hnone in H.
    change (default [0; 1; 2; 3; 4] None) with [0; 1; 2; 3; 4] in H.
    apply routine_days_dates in H as (new & -> & Hall).
    rewrite app_nil_l.
    eapply List.Forall_impl; [|exact Hall]. cbv beta. intros s [Hs Hr].
    split; [lia|].
    cbn [existsb] in Hs. rewrite !orb_true_iff, !Z.eqb_eq in Hs. lia.
Qed.

Lemma routine_default_weekdays_witness :
  exists suggestions,
    suggest_routine_times 8 [] 1
      {| rd_duration_minutes := Some 720; rd_preferred_time := VNone;
         rd_days_of_week := None |} = Ok suggestions /\
    length suggestions = 5%nat /\
    Forall (fun s => weekday (sg_date s) <> 5 /\ weekday (sg_date s) <> 6) suggestions.
Proof.
  eexists. split; [reflexivity|]. split; [reflexivity|].
  eapply List.Forall_impl;
    [|exact (proj2 (routine_default_weekdays 8 [] 1
                      {| rd_duration_minutes := Some 720; rd_preferred_time := VNone;
                         rd_days_of_week := None |} _ eq_refl eq_refl))].
  intros s (_ & _ & H5 & H6). split; assumption.
Defined.

(** ** Rescheduling and the provider's store *)

Lemma events_get_cases cal event_id :
  (exists e, events_get cal event_id = Ok e) \/
  events_get cal event_id = Raise HttpError.
Proof.
  unfold events_get.
  destruct (List.find (fun x => String.eqb (ev_id x) event_id) cal) as [x|];
    [left; exists x; reflexivity | right; reflexivity].
Qed.

(** What [update_event] does with a [start_time] it is given: the
    [datetime] object goes into the body as it is, the body cannot be
    serialised, and nothing is stored. *)
Lemma update_event_datetime cal event_id original title start_time end_time :
  events_get cal event_id = Ok original ->
  update_event cal event_id
    {| ed_title := title; ed_start_time := Some start_time; ed_end_time := end_time |}
  = (Raise TypeError, cal).
Proof. intros Hget. unfold update_event. rewrite Hget. reflexivity. Qed.

Lemma reschedule_conflicts_stored fuel event_id new_time cal original :
  events_get cal event_id = Ok original ->
  reschedule_conflicts fuel event_id new_time cal = (Raise TypeError, cal).
Proof.
  intros Hget. unfold reschedule_conflicts. rewrite Hget. cbv zeta.
  destruct (check_conflicts cal new_time
              (new_time + (ev_end original - ev_start original))) as [|c cs].
  - apply (update_event_datetime cal event_id original). exact Hget.
  - reflexivity.
Qed.

(** C5.  [reschedule_conflicts] returns no resolved interval: for every
    fuel, event id, desired start and calendar the call ends in an
    exception, and the store is as it was.  An unknown id gives
    [HttpError].  For a stored event the call raises [TypeError]: with a
    conflict at the desired start, from the [date] handed to
    [find_free_slots]; with none, from [update_event], which the call
    itself makes with the desired interval and which puts the [datetime]
    objects into the body as they are, whatever else the data holds. *)
Theorem reschedule_conflicts_never_returns (fuel : nat) (event_id : string)
        (new_time : Z) (cal : store) :
  (exists e,
      reschedule_conflicts fuel event_id new_time cal = (Raise e, cal) /\
      (e = HttpError \/ e = TypeError)) /\
  (forall original,
      events_get cal event_id = Ok original ->
      reschedule_conflicts fuel event_id new_time cal = (Raise TypeError, cal)) /\
  (forall original,
      events_get cal event_id = Ok original ->
      check_conflicts cal new_time (new_time + (ev_end original - ev_start original)) = [] ->
      reschedule_conflicts fuel event_id new_time cal
      = update_event cal event_id
          {| ed_title := None;
             ed_start_time := Some new_time;
             ed_end_time := Some (new_time + (ev_end original - ev_start original)) |}) /\
  (forall original title end_time,
      events_get cal event_id = Ok original ->
      update_event cal event_id
        {| ed_title := title; ed_start_time := Some new_time; ed_end_time := end_time |}
      = (Raise TypeError, cal)).
Proof.
  split; [|split; [|split]].
  - destruct (events_get_cases cal event_id) as [[original Hget] | Hget].
    + exists TypeError. split; [|right; reflexivity].
      apply (reschedule_conflicts_stored _ _ _ _ original). exact Hget.
    + exists HttpError. split; [|left; reflexivity].
      unfold reschedule_conflicts. rewrite Hget. reflexivity.
  - intros original Hget.
    apply (reschedule_conflicts_stored _ _ _ _ original). exact Hget.
  - intros original Hget Hnone. unfold reschedule_conflicts.
    rewrite Hget. cbv zeta. rewrite Hnone. reflexivity.
  - intros original title end_time Hget.
    apply (update_event_datetime cal event_id original). exact Hget.
Qed.

Lemma reschedule_conflicts_never_returns_witness :
  reschedule_conflicts 0 "e1" (clock 14 0) [meeting "e1" (clock 9 0) (clock 10 0)]
  = (Raise TypeError, [meeting "e1" (clock 9 0) (clock 10 0)]) /\
  reschedule_conflicts 0 "e1" (clock 14 0) [meeting "e1" (clock 9 0) (clock 10 0)]
  = update_event [meeting "e1" (clock 9 0) (clock 10 0)] "e1"
      {| ed_title := None;
         ed_start_time := Some (clock 14 0);
         ed_end_time := Some (clock 14 0 + (clock 10 0 - clock 9 0)) |}.
Proof.
  split.
  - apply (proj1 (proj2 (reschedule_conflicts_never_returns
                           0 "e1" (clock 14 0)
                           [meeting "e1" (clock 9 0) (clock 10 0)]))
                 (meeting "e1" (clock 9 0) (clock 10 0))).
    reflexivity.
  - apply (proj1 (proj2 (proj2 (reschedule_conflicts_never_returns
                                  0 "e1" (clock 14 0)
                                  [meeting "e1" (clock 9 0) (clock 10 0)])))
                 (meeting "e1" (clock 9 0) (clock 10 0))); reflexivity.
Defined.

(** ** The walk of [optimize_schedule] *)

Lemma insert_by_rank_perm e l : Permutation (insert_by_rank e l) (e :: l).
Proof.
  induction l as [|x l IH]; simpl; [reflexivity|].
  destruct (priority_rank e <=? priority_rank x)%nat; [reflexivity|].
  eapply perm_trans; [apply perm_skip, IH | apply perm_swap].
Qed.

Lemma sort_by_priority_perm events : Permutation (sort_by_priority events) events.
Proof.
  induction events as [|e l IH]; simpl; [reflexivity|].
  eapply perm_trans; [apply insert_by_rank_perm | apply perm_skip, IH].
Qed.

(** ** More on the free-slot scan *)

Lemma order_by_start_perm events : Permutation (order_by_start events) events.
Proof.
  assert (Hins : forall e l, Permutation (insert_by_start e l) (e :: l)).
  { intros e l. induction l as [|x l IH]; simpl; [reflexivity|].
    destruct (ev_start e <=? ev_start x); [reflexivity|].
    eapply perm_trans; [apply perm_skip, IH | apply perm_swap]. }
  induction events as [|e l IH]; simpl; [reflexivity|].
  eapply perm_trans; [apply Hins | apply perm_skip, IH].
Qed.

Lemma events_list_In cal timeMin timeMax e :
  In e (events_list cal timeMin timeMax) <->
  In e cal /\ timeMin < ev_end e /\ ev_start e < timeMax.
Proof.
  unfold events_list. split.
  - intros H. apply (Permutation_in _ (order_by_start_perm _)) in H.
    apply filter_In in H as [Hin Hc]. apply andb_true_iff in Hc as [H1 H2].
    apply Z.ltb_lt in H1, H2. auto.
  - intros (Hin & H1 & H2).
    apply (Permutation_in _ (Permutation_sym (order_by_start_perm _))).
    apply filter_In. split; [exact Hin|].
    apply andb_true_iff. split; apply Z.ltb_lt; assumption.
Qed.

Lemma StronglySorted_snoc {A} (R : A -> A -> Prop) l x :
  StronglySorted R l -> Forall (fun a => R a x) l -> StronglySorted R (l ++ [x]).
Proof.
  induction 1 as [|a l Hs IH Ha]; intros Hx; simpl.
  - constructor; constructor.
  - inversion Hx as [|? ? Hax Hlx]; subst.
    constructor; [apply IH; exact Hlx|].
    apply Forall_app. split; [exact Ha | constructor; [exact Hax | constructor]].
Qed.

Lemma scan_packed end_time d busy :
  0 < d ->
  forall (n : nat) free_slots c slots,
    packed free_slots ->
    Forall (fun s => slot_end s <= c) free_slots ->
    scan n end_time d busy (free_slots, c) = Ok slots ->
    packed slots.
Proof.
  intros Hd. induction n as [|n IH]; intros fs c slots Hp Hc; [discriminate|].
  cbn [scan fst].
  destruct (scan_step_cases end_time d busy fs c)
    as [[H _] | [(be & Hb & _ & _ & H) | (_ & _ & _ & H)]]; rewrite H.
  - intros [= <-]. exact Hp.
  - apply IH; [exact Hp|].
    apply first_busy_end_Some in Hb as (pre & bs & post & _ & [Hlt _] & _).
    simpl in Hlt. rewrite timedelta_minutes_eq.
    eapply List.Forall_impl; [|exact Hc]. intros s Hs. simpl in Hs. lia.
  - apply IH.
    + apply StronglySorted_snoc; [exact Hp|].
      eapply List.Forall_impl; [|exact Hc]. intros s Hs. simpl. exact Hs.
    + apply Forall_app. split.
      * eapply List.Forall_impl; [|exact Hc]. intros s Hs. simpl in Hs.
        rewrite timedelta_minutes_eq. nia.
      * constructor; [simpl; lia | constructor].
Qed.

Lemma scan_count start_time end_time d busy :
  0 < d ->
  forall (n : nat) free_slots c slots m,
    start_time + Z.of_nat (length free_slots) * timedelta_minutes d <= m ->
    m <= c -> m <= end_time ->
    scan n end_time d busy (free_slots, c) = Ok slots ->
    Z.of_nat (length slots) * timedelta_minutes d <= end_time - start_time.
Proof.
  intros Hd. induction n as [|n IH]; intros fs c slots m Hm Hmc Hme; [discriminate|].
  cbn [scan fst].
  destruct (scan_step_cases end_time d busy fs c)
    as [[H _] | [(be & Hb & _ & _ & H) | (_ & _ & Hfit & H)]]; rewrite H.
  - intros [= <-]. lia.
  - apply (IH _ _ _ m); [exact Hm | | exact Hme].
    apply first_busy_end_Some in Hb as (pre & bs & post & _ & [Hlt _] & _).
    simpl in Hlt. rewrite timedelta_minutes_eq. lia.
  - apply (IH _ _ _ (c + timedelta_minutes d)); [| lia | exact Hfit].
    rewrite length_app. simpl. rewrite Nat2Z.inj_add. simpl Z.of_nat. lia.
Qed.

Lemma packed_starts_increase d slots :
  0 < d ->
  Forall (fun s => slot_end s - slot_start s = timedelta_minutes d) slots ->
  packed slots ->
  StronglySorted (fun a b => slot_start a < slot_start b) slots.
Proof.
  intros Hd Hlen Hp. induction Hp as [|a l Hs IH Ha]; [constructor|].
  inversion Hlen as [|? ? Hla Hll]; subst.
  constructor; [apply IH; exact Hll|].
  eapply List.Forall_impl; [|exact Ha]. intros b Hb. simpl in Hb.
  rewrite timedelta_minutes_eq in Hla. lia.
Qed.

(** X1.  The slots that the scan returns for a positive duration come in
    chronological order and never overlap each other: every slot ends at
    or before the start of each later slot, starts strictly increase, and
    there are at most [1440 / D] of them. *)
Theorem free_slots_packed (start_time duration_minutes : Z)
        (busy_slots : list (Z * Z)) (fuel : nat) (slots : list slot) :
  0 < duration_minutes ->
  free_slots_of fuel start_time duration_minutes busy_slots = Ok slots ->
  packed slots /\
  StronglySorted (fun a b => slot_start a < slot_start b) slots /\
  Z.of_nat (length slots) <= 1440 / duration_minutes.
Proof.
  intros Hd H. unfold free_slots_of in H.
  assert (Hp : packed slots).
  { apply (scan_packed (start_time + timedelta_days 1) duration_minutes busy_slots
                        Hd fuel [] start_time slots);
      [constructor | constructor | exact H]. }
  split; [exact Hp|]. split.
  - apply (packed_starts_increase duration_minutes); [exact Hd | | exact Hp].
    pose proof (scan_sound start_time (start_time + timedelta_days 1)
                           duration_minutes busy_slots Hd fuel [] start_time slots
                           (Z.le_refl _) (List.Forall_nil _) H) as Hall.
    eapply List.Forall_impl; [|exact Hall]. intros s Hs. exact (proj1 Hs).
  - pose proof (scan_count start_time (start_time + timedelta_days 1)
                           duration_minutes busy_slots Hd fuel [] start_time slots
                           start_time) as Hc.
    simpl in Hc. rewrite timedelta_day_eq in Hc.
    specialize (Hc ltac:(lia) ltac:(lia) ltac:(lia) H).
    rewrite timedelta_minutes_eq in Hc.
    apply Z.div_le_lower_bound; [exact Hd | nia].
Qed.

Lemma free_slots_packed_witness :
  exists slots,
    free_slots_of 1441 0 60 [(clock 0 30, clock 1 30)] = Ok slots /\
    packed slots /\ Z.of_nat (length slots) <= 24.
Proof.
  eexists. split; [reflexivity|].
  destruct (free_slots_packed 0 60 [(clock 0 30, clock 1 30)] 1441 _
                              ltac:(lia) eq_refl) as (Hp & _ & Hn).
  split; [exact Hp | exact Hn].
Defined.

Lemma scan_tiles start_time d :
  0 < d ->
  forall (k i : nat) (fuel : nat) free_slots,
    (i + k)%nat = Z.to_nat (1440 / d) ->
    (k < fuel)%nat ->
    scan fuel (start_time + timedelta_days 1) d []
         (free_slots, start_time + Z.of_nat i * timedelta_minutes d)
    = Ok (free_slots ++ List.map (tile start_time d) (List.seq i k)).
Proof.
  intros Hd.
  assert (Hq : 0 <= 1440 / d) by (apply Z.div_pos; lia).
  pose proof (Z.mul_div_le 1440 d Hd) as Hlo.
  pose proof (Z.mul_succ_div_gt 1440 d Hd) as Hhi.
  induction k as [|k IH]; intros i fuel fs Hik Hfuel;
    (destruct fuel as [|fuel]; [lia|]); cbn [scan fst];
    destruct (scan_step_cases (start_time + timedelta_days 1) d []
                              fs (start_time + Z.of_nat i * timedelta_minutes d))
      as [[H Hex] | [(be & Hb & _ & _ & _) | (_ & Hlt & Hfit & H)]];
    try discriminate Hb; rewrite H;
    rewrite ?timedelta_day_eq, ?timedelta_minutes_eq in *.
  - simpl. rewrite app_nil_r. reflexivity.
  - exfalso. assert (Z.of_nat i = 1440 / d) by lia. nia.
  - exfalso. assert (Z.of_nat i + Z.of_nat (S k) = 1440 / d) by lia. nia.
  - replace (start_time + Z.of_nat i * (d * 60000000) + d * 60000000)
      with (start_time + Z.of_nat (S i) * (d * 60000000)) by lia.
    rewrite <- (timedelta_minutes_eq d).
    rewrite (IH (S i) fuel); [| lia | lia].
    rewrite <- app_assoc. cbn [List.seq List.map app].
    do 3 f_equal. unfold tile. f_equal; rewrite ?timedelta_minutes_eq; lia.
Qed.

(** X2.  On a day without busy slots the scan tiles the whole window: for
    a positive duration [D] it returns exactly the [1440 / D] slots
    [[start + i*D, start + (i+1)*D)], in order, as soon as the fuel exceeds
    that number; so does [find_free_slots] on an empty calendar. *)
Theorem free_slots_tile_empty_day (start_time duration_minutes : Z) (fuel : nat) :
  0 < duration_minutes ->
  (Z.to_nat (1440 / duration_minutes) < fuel)%nat ->
  free_slots_of fuel start_time duration_minutes [] = Ok (tiling start_time duration_minutes) /\
  length (tiling start_time duration_minutes) = Z.to_nat (1440 / duration_minutes) /\
  (forall dt,
      find_free_slots fuel [] (PyDatetime dt) duration_minutes
      = Ok (tiling (dt - time_of dt) duration_minutes)).
Proof.
  intros Hd Hfuel.
  assert (Hscan : forall s, free_slots_of fuel s duration_minutes []
                            = Ok (tiling s duration_minutes)).
  { intros s. unfold free_slots_of, tiling.
    pose proof (scan_tiles s duration_minutes Hd
                           (Z.to_nat (1440 / duration_minutes)) 0 fuel []
                           eq_refl Hfuel) as H.
    simpl in H. rewrite Z.add_0_r in H. exact H. }
  split; [apply Hscan|]. split.
  - unfold tiling. rewrite length_map, length_seq. reflexivity.
  - intros dt. rewrite find_free_slots_datetime. cbv zeta.
    change (events_list [] (dt - time_of dt) (dt - time_of dt + timedelta_days 1))
      with (@nil event).
    apply Hscan.
Qed.

Lemma free_slots_tile_empty_day_witness :
  free_slots_of 3 0 720 []
  = Ok [{| slot_start := clock 0 0; slot_end := clock 12 0 |};
        {| slot_start := clock 12 0; slot_end := clock 24 0 |}].
Proof.
  rewrite (proj1 (free_slots_tile_empty_day 0 720 3 ltac:(lia) ltac:(vm_compute; lia))).
  reflexivity.
Defined.

(** X3.  The scan returns the empty list, and no error, when no slot can
    exist: for a duration above 24 hours, on the first turn; and for any
    positive duration when one busy slot covers the whole window. *)
Theorem free_slots_none (start_time duration_minutes : Z)
        (busy_slots : list (Z * Z)) :
  (1440 < duration_minutes ->
   forall fuel : nat,
     free_slots_of (S fuel) start_time duration_minutes busy_slots = Ok []) /\
  (0 < duration_minutes ->
   Exists (fun b => fst b <= start_time /\ start_time + timedelta_days 1 <= snd b)
          busy_slots ->
   forall fuel : nat, (1441 <= fuel)%nat ->
     free_slots_of fuel start_time duration_minutes busy_slots = Ok []).
Proof.
  split.
  - intros Hd fuel. unfold free_slots_of. cbn [scan fst].
    destruct (scan_step_cases (start_time + timedelta_days 1) duration_minutes
                              busy_slots [] start_time)
      as [[H _] | [(be & _ & _ & Hfit & _) | (_ & _ & Hfit & _)]];
      rewrite ?timedelta_day_eq, ?timedelta_minutes_eq in *;
      [rewrite H; reflexivity | lia | lia].
  - intros Hd Hcover fuel Hfuel.
    destruct (free_slots_of_total start_time duration_minutes busy_slots Hd)
      as [slots Hrun].
    rewrite (Hrun fuel Hfuel). f_equal.
    destruct slots as [|s rest]; [reflexivity|]. exfalso.
    pose proof (scan_sound start_time (start_time + timedelta_days 1)
                           duration_minutes busy_slots Hd fuel [] start_time
                           (s :: rest) (Z.le_refl _) (List.Forall_nil _)
                           (Hrun fuel Hfuel)) as Hall.
    inversion Hall as [|? ? (Hlen & Hlo & Hhi & Hfree) _]; subst.
    apply Exists_exists in Hcover as (b & Hin & Hb1 & Hb2).
    rewrite Forall_forall in Hfree. apply (Hfree b Hin).
    unfold blocks, overlaps. rewrite timedelta_minutes_eq in Hlen. lia.
Qed.

Lemma free_slots_none_witness :
  free_slots_of 1 0 1441 [] = Ok [] /\
  free_slots_of 1441 0 30 [(clock 8 0, clock 9 0); (clock 0 0, clock 24 0)] = Ok [].
Proof.
  split.
  - apply (proj1 (free_slots_none 0 1441 [])). lia.
  - apply (proj2 (free_slots_none 0 30 [(clock 8 0, clock 9 0); (clock 0 0, clock 24 0)]));
      [lia | | lia].
    right. left. split; [reflexivity | discriminate].
Defined.

Lemma midnight_of_day dt : dt - time_of dt = combine_min (date_of dt).
Proof.
  unfold time_of, combine_min, date_of.
  pose proof (Z.div_mod dt day_us ltac:(discriminate)). lia.
Qed.

Lemma time_of_combine_min d : time_of (combine_min d) = 0.
Proof. unfold time_of, combine_min. apply Z.mod_mul. discriminate. Qed.

(** X4.  [get_daily_agenda] and [find_free_slots] depend on the calendar
    day of their [date] argument only: the window starts at the midnight
    of that day, whatever the time of day passed, and the result is the one
    for that midnight. *)
Theorem day_window_only (fuel : nat) (cal : store) (dt duration_minutes : Z) :
  time_of (dt - time_of dt) = 0 /\
  date_of (dt - time_of dt) = date_of dt /\
  get_daily_agenda cal (PyDatetime dt)
  = get_daily_agenda cal (PyDatetime (combine_min (date_of dt))) /\
  find_free_slots fuel cal (PyDatetime dt) duration_minutes
  = find_free_slots fuel cal (PyDatetime (combine_min (date_of dt))) duration_minutes.
Proof.
  assert (Hm : combine_min (date_of dt) - time_of (combine_min (date_of dt))
               = dt - time_of dt).
  { rewrite time_of_combine_min, midnight_of_day. lia. }
  split; [rewrite midnight_of_day; apply time_of_combine_min|].
  split.
  - rewrite midnight_of_day. unfold date_of, combine_min.
    apply Z.div_mul. discriminate.
  - split.
    + unfold get_daily_agenda, replace_midnight, bind_res. rewrite Hm. reflexivity.
    + rewrite !find_free_slots_datetime. cbv zeta. rewrite Hm. reflexivity.
Qed.

Lemma find_free_slots_free_in fuel cal dt d slots :
  0 < d ->
  find_free_slots fuel cal (PyDatetime dt) d = Ok slots ->
  Forall (fun s =>
            slot_end s - slot_start s = timedelta_minutes d /\
            combine_min (date_of dt) <= slot_start s /\
            slot_end s <= combine_min (date_of dt + 1) /\
            free_in cal (slot_start s) (slot_end s)) slots.
Proof.
  intros Hd H. rewrite find_free_slots_datetime in H. cbv zeta in H.
  rewrite midnight_of_day in H.
  pose proof (scan_sound (combine_min (date_of dt))
                         (combine_min (date_of dt) + timedelta_days 1) d _ Hd fuel []
                         (combine_min (date_of dt)) slots
                         (Z.le_refl _) (List.Forall_nil _) H) as Hall.
  eapply List.Forall_impl; [|exact Hall].
  intros s (Hlen & Hlo & Hhi & Hfree).
  assert (Hday : combine_min (date_of dt) + timedelta_days 1
                 = combine_min (date_of dt + 1))
    by (unfold combine_min, timedelta_days; lia).
  split; [exact Hlen|]. split; [exact Hlo|]. split; [lia|].
  unfold free_in. apply List.Forall_forall. intros e Hin Hov.
  unfold busy_of in Hfree. rewrite List.Forall_map, List.Forall_forall in Hfree.
  apply (Hfree e); [|exact Hov].
  apply events_list_In. split; [exact Hin|].
  destruct Hov as [H1 H2]. rewrite timedelta_minutes_eq in Hlen.
  split; lia.
Qed.

(** X5.  A slot that [find_free_slots] returns for a positive duration is
    free in the whole calendar, not only among the events fetched for the
    day: it lies within the day asked for and overlaps no stored event. *)
Theorem free_slots_free_in_calendar (fuel : nat) (cal : store)
        (dt duration_minutes : Z) (slots : list slot) :
  0 < duration_minutes ->
  find_free_slots fuel cal (PyDatetime dt) duration_minutes = Ok slots ->
  Forall (fun s =>
            combine_min (date_of dt) <= slot_start s /\
            slot_end s <= combine_min (date_of dt + 1) /\
            Forall (fun e => ~ overlaps (slot_start s) (slot_end s)
                                (ev_start e) (ev_end e)) cal) slots.
Proof.
  intros Hd H.
  eapply List.Forall_impl; [|exact (find_free_slots_free_in _ _ _ _ _ Hd H)].
  intros s (_ & Hlo & Hhi & Hfree). split; [exact Hlo|]. split; [exact Hhi | exact Hfree].
Qed.

Lemma free_slots_free_in_calendar_witness :
  exists slots,
    find_free_slots 1441 [meeting "e1" (clock 9 0) (clock 10 0)]
                    (PyDatetime (clock 15 20)) 480 = Ok slots /\
    Forall (fun s => ~ overlaps (slot_start s) (slot_end s) (clock 9 0) (clock 10 0))
           slots.
Proof.
  eexists. split; [reflexivity|].
  eapply List.Forall_impl;
    [|exact (free_slots_free_in_calendar
               1441 [meeting "e1" (clock 9 0) (clock 10 0)] (clock 15 20) 480 _
               ltac:(lia) eq_refl)].
  intros s (_ & _ & Hfree). inversion Hfree; subst. assumption.
Defined.

Lemma select_best_slot_member free_slots priority s :
  _select_best_slot free_slots priority = Ok s -> In s free_slots.
Proof.
  unfold _select_best_slot.
  assert (Hfirst : first_item free_slots = Ok s -> In s free_slots).
  { destruct free_slots; [discriminate|]. intros [= <-]. left. reflexivity. }
  destruct (String.eqb priority "high" || String.eqb priority "urgent");
    [|exact Hfirst].
  destruct (List.filter is_morning free_slots) as [|m r] eqn:Hf; [exact Hfirst|].
  intros [= <-].
  assert (Hin : In m (List.filter is_morning free_slots)) by (rewrite Hf; left; reflexivity).
  apply filter_In in Hin. exact (proj1 Hin).
Qed.

(** X6.  [_select_best_slot] only ever answers with one of the slots it
    was given, raises [IndexError] on an empty list whatever the priority,
    and never fails on a non-empty one; the priority is compared as
    written, so 'High' or 'URGENT' get the first slot like any other
    label. *)
Theorem select_best_slot_total (free_slots : list slot) (priority : string) :
  (free_slots = [] -> _select_best_slot free_slots priority = Raise IndexError) /\
  (free_slots <> [] ->
   exists s, _select_best_slot free_slots priority = Ok s /\ In s free_slots) /\
  (priority <> "high"%string -> priority <> "urgent"%string ->
   _select_best_slot free_slots priority = first_item free_slots).
Proof.
  split; [|split].
  - intros ->. unfold _select_best_slot.
    destruct (String.eqb priority "high" || String.eqb priority "urgent"); reflexivity.
  - intros Hne.
    assert (Hok : exists s, _select_best_slot free_slots priority = Ok s).
    { unfold _select_best_slot. destruct free_slots as [|x rest]; [contradiction|].
      destruct (String.eqb priority "high" || String.eqb priority "urgent");
        [|eexists; reflexivity].
      destruct (List.filter is_morning (x :: rest)); eexists; reflexivity. }
    destruct Hok as [s Hs]. exists s. split; [exact Hs|].
    exact (select_best_slot_member _ _ _ Hs).
  - intros H1 H2. unfold _select_best_slot.
    apply String.eqb_neq in H1, H2. rewrite H1, H2. reflexivity.
Qed.

Lemma select_best_slot_total_witness :
  _select_best_slot [] "urgent" = Raise IndexError /\
  _select_best_slot [{| slot_start := clock 14 0; slot_end := clock 15 0 |};
                     {| slot_start := clock 9 0; slot_end := clock 10 0 |}] "High"
  = Ok {| slot_start := clock 14 0; slot_end := clock 15 0 |}.
Proof.
  split.
  - apply (proj1 (select_best_slot_total [] "urgent")). reflexivity.
  - rewrite (proj2 (proj2 (select_best_slot_total _ "High"))); [reflexivity | | ];
      discriminate.
Defined.

(** ** Creating events *)

Lemma find_app_first {A} (f : A -> bool) l l' :
  List.find f (l ++ l')
  = match List.find f l with Some x => Some x | None => List.find f l' end.
Proof.
  induction l as [|x l IH]; simpl; [reflexivity|].
  destruct (f x); [reflexivity | exact IH].
Qed.

Lemma find_none_iff {A} (f : A -> bool) l :
  List.find f l = None <-> Forall (fun x => f x = false) l.
Proof.
  induction l as [|x l IH]; simpl.
  - split; [constructor | reflexivity].
  - destruct (f x) eqn:Hx.
    + split; [discriminate|]. intros H. inversion H; subst. congruence.
    + rewrite IH. split; [intros H; constructor; assumption|].
      intros H. inversion H; subst. assumption.
Qed.

Lemma check_conflicts_free cal s e :
  check_conflicts cal s e = [] <-> free_in cal s e.
Proof.
  unfold check_conflicts, free_in. split.
  - intros Hnil. apply List.Forall_forall. intros x Hin [H1 H2].
    assert (Hx : In x (events_list cal s e))
      by (apply events_list_In; split; [exact Hin | split; assumption]).
    rewrite Hnil in Hx. exact Hx.
  - intros Hfree. destruct (events_list cal s e) as [|x rest] eqn:Hl; [reflexivity|].
    exfalso.
    assert (Hx : In x (events_list cal s e)) by (rewrite Hl; left; reflexivity).
    apply events_list_In in Hx as (Hin & H1 & H2).
    rewrite List.Forall_forall in Hfree. apply (Hfree x Hin). split; assumption.
Qed.

Lemma create_event_shape now new_id cal data :
  create_event now new_id cal data
  = let ev :=
      {| ev_id := new_id;
         ev_summary :=
           match ed_title data with
           | Some t => if String.eqb t "" then "Untitled Event"%string else t
           | None => "Untitled Event"%string
           end;
         ev_start := default now (ed_start_time data);
         ev_end := default (default now (ed_start_time data) + timedelta_minutes 60)
                           (ed_end_time data);
         ev_priority := None |} in
    (Ok ev, cal ++ [ev]).
Proof. reflexivity. Qed.

(** X7.  [create_event] never refuses: it appends exactly one event to the
    calendar and returns it.  The event has a non-empty summary (an absent
    or empty title becomes "Untitled Event"), starts now when no start is
    given, lasts 60 minutes when no end is given, and carries no priority.
    When the provider's id is new, the event is what a lookup of that id
    then finds, and lookups of every other id are as before. *)
Theorem create_event_appends (now : Z) (new_id : string) (cal : store)
        (data : event_data) :
  exists ev,
    create_event now new_id cal data = (Ok ev, cal ++ [ev]) /\
    ev_id ev = new_id /\
    ev_summary ev <> ""%string /\
    (forall t, ed_title data = Some t -> t <> ""%string -> ev_summary ev = t) /\
    (ed_start_time data = None -> ev_start ev = now) /\
    (ed_end_time data = None -> ev_end ev - ev_start ev = timedelta_minutes 60) /\
    ev_priority ev = None /\
    (Forall (fun e => ev_id e <> new_id) cal ->
     events_get (cal ++ [ev]) new_id = Ok ev) /\
    (forall other, other <> new_id ->
                   events_get (cal ++ [ev]) other = events_get cal other).
Proof.
  rewrite create_event_shape. cbv zeta. eexists. split; [reflexivity|].
  cbn [ev_id ev_summary ev_start ev_end ev_priority].
  split; [reflexivity|]. split; [|split; [|split; [|split; [|split; [|split]]]]].
  - destruct (ed_title data) as [t|]; [|discriminate].
    destruct (String.eqb t "") eqn:Ht; [discriminate|].
    apply String.eqb_neq. exact Ht.
  - intros t -> Ht. apply String.eqb_neq in Ht. rewrite Ht. reflexivity.
  - intros ->. reflexivity.
  - intros ->. cbn [default]. simpl. lia.
  - reflexivity.
  - intros Hfresh. unfold events_get. rewrite find_app_first.
    assert (Hnone : List.find (fun e => String.eqb (ev_id e) new_id) cal = None).
    { apply find_none_iff. eapply List.Forall_impl; [|exact Hfresh].
      intros e He. apply String.eqb_neq. exact He. }
    rewrite Hnone. cbn [List.find ev_id]. rewrite String.eqb_refl. reflexivity.
  - intros other Hne. unfold events_get. rewrite find_app_first.
    destruct (List.find (fun e => String.eqb (ev_id e) other) cal); [reflexivity|].
    cbn [List.find ev_id].
    assert (Hf : String.eqb new_id other = false)
      by (apply String.eqb_neq; congruence).
    rewrite Hf. reflexivity.
Qed.

Lemma create_event_appends_witness :
  exists ev,
    create_event (clock 8 0) "e2" [meeting "e1" (clock 9 0) (clock 10 0)]
                 {| ed_title := Some ""%string; ed_start_time := None;
                    ed_end_time := None |}
    = (Ok ev, [meeting "e1" (clock 9 0) (clock 10 0); ev]) /\
    events_get [meeting "e1" (clock 9 0) (clock 10 0); ev] "e2" = Ok ev /\
    ev_end ev - ev_start ev = timedelta_minutes 60.
Proof.
  destruct (create_event_appends (clock 8 0) "e2"
              [meeting "e1" (clock 9 0) (clock 10 0)]
              {| ed_title := Some ""%string; ed_start_time := None;
                 ed_end_time := None |})
    as (ev & Hrun & _ & _ & _ & _ & Hlen & _ & Hget & _).
  exists ev. split; [exact Hrun|]. split.
  - apply Hget. constructor; [discriminate | constructor].
  - apply Hlen. reflexivity.
Defined.

Lemma create_time_block_conflict now new_id cal block s e :
  bd_start_time block = Some s -> bd_end_time block = Some e ->
  Exists (fun x => overlaps s e (ev_start x) (ev_end x)) cal ->
  create_time_block now new_id cal block = (Raise ValueError, cal).
Proof.
  intros Hs He Hex. unfold create_time_block. rewrite Hs, He.
  destruct (check_conflicts cal s e) as [|c cs] eqn:Hc; [|reflexivity].
  exfalso. apply check_conflicts_free in Hc.
  apply List.Exists_exists in Hex as (x & Hin & Hov).
  unfold free_in in Hc. rewrite List.Forall_forall in Hc. exact (Hc x Hin Hov).
Qed.

(** X8.  [create_time_block] refuses a block without a start or an end,
    and a block that any stored event runs into, with [ValueError] and the
    calendar untouched; otherwise it appends the block, at exactly the
    interval asked for, under the title given or "Time Block". *)
Theorem create_time_block_outcome (now : Z) (new_id : string) (cal : store)
        (block : block_data) :
  (bd_start_time block = None \/ bd_end_time block = None ->
   create_time_block now new_id cal block = (Raise ValueError, cal)) /\
  (forall s e,
      bd_start_time block = Some s -> bd_end_time block = Some e ->
      (Exists (fun x => overlaps s e (ev_start x) (ev_end x)) cal ->
       create_time_block now new_id cal block = (Raise ValueError, cal)) /\
      (Forall (fun x => ~ overlaps s e (ev_start x) (ev_end x)) cal ->
       exists ev,
         create_time_block now new_id cal block = (Ok ev, cal ++ [ev]) /\
         ev_id ev = new_id /\ ev_start ev = s /\ ev_end ev = e /\
         (bd_title block = None -> ev_summary ev = "Time Block"%string))).
Proof.
  split.
  - unfold create_time_block. intros [-> | ->]; [reflexivity|].
    destruct (bd_start_time block); reflexivity.
  - intros s e Hs He. split.
    + apply create_time_block_conflict; assumption.
    + unfold create_time_block. rewrite Hs, He. intros Hfree. rewrite (proj2 (check_conflicts_free cal s e) Hfree).
      rewrite create_event_shape. cbv zeta. eexists. split; [reflexivity|].
      cbn [ev_id ev_start ev_end ev_summary ed_title ed_start_time ed_end_time default].
      repeat split. intros ->. reflexivity.
Qed.

Lemma create_time_block_outcome_witness :
  create_time_block (clock 8 0) "b1" [meeting "e1" (clock 9 0) (clock 10 0)]
    {| bd_title := None; bd_start_time := Some (clock 9 30);
       bd_end_time := Some (clock 11 0) |}
  = (Raise ValueError, [meeting "e1" (clock 9 0) (clock 10 0)]) /\
  create_time_block (clock 8 0) "b1" [meeting "e1" (clock 9 0) (clock 10 0)]
    {| bd_title := None; bd_start_time := Some (clock 10 0);
       bd_end_time := None |}
  = (Raise ValueError, [meeting "e1" (clock 9 0) (clock 10 0)]).
Proof.
  split.
  - apply (proj1 (proj2 (create_time_block_outcome
                           (clock 8 0) "b1" [meeting "e1" (clock 9 0) (clock 10 0)]
                           {| bd_title := None; bd_start_time := Some (clock 9 30);
                              bd_end_time := Some (clock 11 0) |})
                        (clock 9 30) (clock 11 0) eq_refl eq_refl)).
    constructor. split; reflexivity.
  - apply (proj1 (create_time_block_outcome
                    (clock 8 0) "b1" [meeting "e1" (clock 9 0) (clock 10 0)]
                    {| bd_title := None; bd_start_time := Some (clock 10 0);
                       bd_end_time := None |})).
    right. reflexivity.
Defined.

(** X9.  Time blocks cannot be double-booked: once [create_time_block] has
    stored a block, a second request for any interval that overlaps it is
    refused with [ValueError] and changes nothing, whatever else the
    calendar holds. *)
Theorem create_time_block_no_double_booking
        (now now' : Z) (id id' : string) (cal cal' : store)
        (block block' : block_data) (ev : event) (s e s' e' : Z) :
  bd_start_time block = Some s -> bd_end_time block = Some e ->
  create_time_block now id cal block = (Ok ev, cal') ->
  bd_start_time block' = Some s' -> bd_end_time block' = Some e' ->
  overlaps s' e' s e ->
  create_time_block now' id' cal' block' = (Raise ValueError, cal').
Proof.
  intros Hs He Hrun Hs' He' Hov.
  apply (create_time_block_conflict now' id' cal' block' s' e' Hs' He').
  unfold create_time_block in Hrun. rewrite Hs, He in Hrun.
  destruct (check_conflicts cal s e); [|discriminate Hrun].
  rewrite create_event_shape in Hrun. cbv zeta in Hrun.
  injection Hrun as <- <-.
  apply List.Exists_exists. eexists. split; [apply in_or_app; right; left; reflexivity|].
  exact Hov.
Qed.

Lemma create_time_block_no_double_booking_witness :
  exists ev cal',
    create_time_block (clock 8 0) "b1" []
      {| bd_title := Some "focus"%string; bd_start_time := Some (clock 9 0);
         bd_end_time := Some (clock 11 0) |} = (Ok ev, cal') /\
    create_time_block (clock 8 5) "b2" cal'
      {| bd_title := Some "focus"%string; bd_start_time := Some (clock 9 0);
         bd_end_time := Some (clock 11 0) |} = (Raise ValueError, cal').
Proof.
  eexists. eexists. split; [reflexivity|].
  apply (create_time_block_no_double_booking
           (clock 8 0) (clock 8 5) "b1" "b2" [] _
           {| bd_title := Some "focus"%string; bd_start_time := Some (clock 9 0);
              bd_end_time := Some (clock 11 0) |}
           {| bd_title := Some "focus"%string; bd_start_time := Some (clock 9 0);
              bd_end_time := Some (clock 11 0) |}
           _ (clock 9 0) (clock 11 0) (clock 9 0) (clock 11 0)
           eq_refl eq_refl eq_refl eq_refl eq_refl).
  split; reflexivity.
Defined.

(** ** Scheduling a task *)

Lemma find_free_slots_total fuel cal dt d :
  0 < d -> (1441 <= fuel)%nat ->
  exists slots, find_free_slots fuel cal (PyDatetime dt) d = Ok slots.
Proof.
  intros Hd Hfuel. rewrite find_free_slots_datetime. cbv zeta.
  destruct (free_slots_of_total
              (dt - time_of dt) d
              (busy_of (events_list cal (dt - time_of dt)
                                    (dt - time_of dt + timedelta_days 1))) Hd)
    as [slots H].
  exists slots. apply H. exact Hfuel.
Qed.

Lemma date_of_combine_min d : date_of (combine_min d) = d.
Proof. unfold date_of, combine_min. apply Z.div_mul. discriminate. Qed.

Lemma combine_min_mono a b : a <= b -> combine_min a <= combine_min b.
Proof. unfold combine_min, day_us, hour_us, minute_us, second_us. lia. Qed.

(** What [schedule_task] stores for the slot [s]. *)
Lemma schedule_task_created now new_id cal title (s : slot) :
  create_event now new_id cal
    {| ed_title := Some title; ed_start_time := Some (slot_start s);
       ed_end_time := Some (slot_end s) |}
  = let ev := {| ev_id := new_id;
                 ev_summary := if String.eqb title "" then "Untitled Event"%string
                               else title;
                 ev_start := slot_start s; ev_end := slot_end s;
                 ev_priority := None |} in
    (Ok ev, cal ++ [ev]).
Proof. reflexivity. Qed.

(** X10.  For a positive duration the outcome of [schedule_task] is fixed
    by the two lists that [find_free_slots] returns, for the preferred day
    and for the day after.  When both lists are empty it raises
    [ValueError] and leaves the calendar untouched.  When the first list
    has a slot it appends one event on the preferred day; when only the
    second has one it appends one event on the day after.  The appended
    event takes the interval of the slot that [_select_best_slot] picks
    from that list: it lasts exactly the duration and overlaps no stored
    event. *)
Theorem schedule_task_outcome (fuel : nat) (today now : Z) (new_id : string)
        (cal : store) (t : task) :
  let d := default Settings.DEFAULT_EVENT_DURATION (tk_duration_minutes t) in
  let day := default today (tk_preferred_date t) in
  let priority := default "medium"%string (tk_priority t) in
  let placed_from (first_day : Z) (free_slots : list slot) :=
    exists s ev,
      _select_best_slot free_slots priority = Ok s /\
      In s free_slots /\
      schedule_task fuel today now new_id cal t = (Ok ev, cal ++ [ev]) /\
      ev_id ev = new_id /\
      ev_start ev = slot_start s /\
      ev_end ev = slot_end s /\
      ev_end ev - ev_start ev = timedelta_minutes d /\
      combine_min first_day <= ev_start ev /\
      ev_end ev <= combine_min (first_day + 1) /\
      Forall (fun x => ~ overlaps (ev_start ev) (ev_end ev) (ev_start x) (ev_end x)) cal in
  0 < d ->
  (1441 <= fuel)%nat ->
  exists slots1 slots2,
    find_free_slots fuel cal (PyDatetime (combine_min day)) d = Ok slots1 /\
    find_free_slots fuel cal (PyDatetime (combine_min (day + 1))) d = Ok slots2 /\
    (slots1 = [] -> slots2 = [] ->
     schedule_task fuel today now new_id cal t = (Raise ValueError, cal)) /\
    (slots1 <> [] -> placed_from day slots1) /\
    (slots1 = [] -> slots2 <> [] -> placed_from (day + 1) slots2).
Proof.
  intros d day priority placed_from Hd Hfuel.
  destruct (find_free_slots_total fuel cal (combine_min day) d Hd Hfuel)
    as [slots1 H1].
  destruct (find_free_slots_total fuel cal (combine_min (day + 1)) d Hd Hfuel)
    as [slots2 H2].
  exists slots1, slots2. split; [exact H1|]. split; [exact H2|].
  pose proof (find_free_slots_free_in _ _ _ _ _ Hd H1) as Hok1.
  pose proof (find_free_slots_free_in _ _ _ _ _ Hd H2) as Hok2.
  rewrite date_of_combine_min in Hok1, Hok2.
  assert (Hpick : forall x rest,
             exists s, _select_best_slot (x :: rest) priority = Ok s /\
                       In s (x :: rest)).
  { intros x rest.
    destruct (_select_best_slot (x :: rest) priority) as [s| |] eqn:Hs.
    - exists s. split; [reflexivity | exact (select_best_slot_member _ _ _ Hs)].
    - exfalso. unfold _select_best_slot in Hs.
      destruct (String.eqb _ "high" || String.eqb _ "urgent"); [|discriminate Hs].
      destruct (List.filter is_morning (x :: rest)); discriminate Hs.
    - exfalso. unfold _select_best_slot in Hs.
      destruct (String.eqb _ "high" || String.eqb _ "urgent"); [|discriminate Hs].
      destruct (List.filter is_morning (x :: rest)); discriminate Hs. }
  unfold placed_from, schedule_task. fold d. fold day. fold priority. cbv zeta.
  rewrite H1.
  split; [|split].
  - intros -> ->. rewrite H2. reflexivity.
  - intros Hne. destruct slots1 as [|x1 rest1]; [contradiction|].
    destruct (Hpick x1 rest1) as (s & Hs & Hin).
    exists s. rewrite Hs, schedule_task_created. cbv zeta. eexists.
    split; [reflexivity|]. split; [exact Hin|]. split; [reflexivity|].
    cbn [ev_id ev_start ev_end].
    rewrite List.Forall_forall in Hok1.
    destruct (Hok1 s Hin) as (Hlen & Hlo & Hhi & Hfree).
    repeat (split; [first [reflexivity | assumption]|]). exact Hfree.
  - intros -> Hne. rewrite H2. destruct slots2 as [|x2 rest2]; [contradiction|].
    destruct (Hpick x2 rest2) as (s & Hs & Hin).
    exists s. rewrite Hs, schedule_task_created. cbv zeta. eexists.
    split; [reflexivity|]. split; [exact Hin|]. split; [reflexivity|].
    cbn [ev_id ev_start ev_end].
    rewrite List.Forall_forall in Hok2.
    destruct (Hok2 s Hin) as (Hlen & Hlo & Hhi & Hfree).
    repeat (split; [first [reflexivity | assumption]|]). exact Hfree.
Qed.

Lemma schedule_task_outcome_witness :
  (exists ev,
      schedule_task 1441 0 (clock 8 0) "t1"
        [meeting "e1" (clock 0 0) (clock 24 0)]
        {| tk_title := "write report"; tk_duration_minutes := Some 720;
           tk_preferred_date := None; tk_priority := Some "urgent"%string |}
      = (Ok ev, [meeting "e1" (clock 0 0) (clock 24 0); ev]) /\
      combine_min 1 <= ev_start ev) /\
  schedule_task 1441 0 (clock 8 0) "t1"
    [meeting "e1" (clock 0 0) (clock 48 0)]
    {| tk_title := "write report"; tk_duration_minutes := Some 720;
       tk_preferred_date := None; tk_priority := Some "urgent"%string |}
  = (Raise ValueError, [meeting "e1" (clock 0 0) (clock 48 0)]).
Proof.
  split.
  - destruct (schedule_task_outcome 1441 0 (clock 8 0) "t1"
                [meeting "e1" (clock 0 0) (clock 24 0)]
                {| tk_title := "write report"; tk_duration_minutes := Some 720;
                   tk_preferred_date := None; tk_priority := Some "urgent"%string |}
                ltac:(reflexivity) ltac:(lia))
      as (slots1 & slots2 & H1 & H2 & _ & _ & Hnext).
    vm_compute in H1. injection H1 as <-.
    vm_compute in H2. injection H2 as <-.
    destruct (Hnext eq_refl ltac:(discriminate))
      as (s & ev & _ & _ & Hrun & _ & _ & _ & _ & Hlo & _).
    exists ev. split; [exact Hrun | exact Hlo].
  - destruct (schedule_task_outcome 1441 0 (clock 8 0) "t1"
                [meeting "e1" (clock 0 0) (clock 48 0)]
                {| tk_title := "write report"; tk_duration_minutes := Some 720;
                   tk_preferred_date := None; tk_priority := Some "urgent"%string |}
                ltac:(reflexivity) ltac:(lia))
      as (slots1 & slots2 & H1 & H2 & Hnone & _ & _).
    vm_compute in H1. injection H1 as <-.
    vm_compute in H2. injection H2 as <-.
    exact (Hnone eq_refl eq_refl).
Defined.

Lemma schedule_task_creates fuel today now new_id cal t ev cal' :
  schedule_task fuel today now new_id cal t = (Ok ev, cal') ->
  exists data, create_event now new_id cal data = (Ok ev, cal').
Proof.
  unfold schedule_task. cbv zeta. intros H.
  destruct (find_free_slots fuel cal _ _) as [slots1| |]; try discriminate H.
  match type of H with
  | context [match ?r with Ok _ => _ | Raise _ => _ | Diverge => _ end] =>
      destruct r as [[|x rest]| |]; try discriminate H
  end.
  destruct (_select_best_slot (x :: rest) _) as [s| |]; try discriminate H.
  eexists. exact H.
Qed.

Lemma create_time_block_creates now new_id cal block ev cal' :
  create_time_block now new_id cal block = (Ok ev, cal') ->
  exists data, create_event now new_id cal data = (Ok ev, cal').
Proof.
  unfold create_time_block. intros H.
  destruct (bd_start_time block); [|discriminate H].
  destruct (bd_end_time block); [|discriminate H].
  destruct (check_conflicts cal _ _); [|discriminate H].
  eexists. exact H.
Qed.

(** X11.  The priority of a request is not stored with the event: the
    body that [create_event] sends has no [priority] key, so every event
    created by [create_event], [schedule_task] or [create_time_block]
    carries none, and [optimize_schedule] ranks it as 'medium' (rank 1)
    whatever priority the task was scheduled with. *)
Theorem created_events_rank_medium :
  (forall now new_id cal data ev cal',
      create_event now new_id cal data = (Ok ev, cal') ->
      ev_priority ev = None /\ priority_rank ev = 1%nat) /\
  (forall fuel today now new_id cal t ev cal',
      schedule_task fuel today now new_id cal t = (Ok ev, cal') ->
      ev_priority ev = None /\ priority_rank ev = 1%nat) /\
  (forall now new_id cal block ev cal',
      create_time_block now new_id cal block = (Ok ev, cal') ->
      ev_priority ev = None /\ priority_rank ev = 1%nat) /\
  (forall y, ev_priority y = Some "medium"%string -> priority_rank y = 1%nat).
Proof.
  assert (Hcreate : forall now new_id cal data ev cal',
             create_event now new_id cal data = (Ok ev, cal') ->
             ev_priority ev = None /\ priority_rank ev = 1%nat).
  { intros now new_id cal data ev cal' H.
    rewrite create_event_shape in H. cbv zeta in H. injection H as <- _.
    split; reflexivity. }
  split; [exact Hcreate|]. split; [|split].
  - intros fuel today now new_id cal t ev cal' H.
    destruct (schedule_task_creates _ _ _ _ _ _ _ _ H) as [data Hd].
    exact (Hcreate _ _ _ _ _ _ Hd).
  - intros now new_id cal block ev cal' H.
    destruct (create_time_block_creates _ _ _ _ _ _ H) as [data Hd].
    exact (Hcreate _ _ _ _ _ _ Hd).
  - intros y Hy. unfold priority_rank. rewrite Hy. reflexivity.
Qed.

Lemma created_events_rank_medium_witness :
  exists ev cal',
    schedule_task 1441 0 (clock 8 0) "t1" []
      {| tk_title := "write report"; tk_duration_minutes := Some 720;
         tk_preferred_date := None; tk_priority := Some "urgent"%string |}
    = (Ok ev, cal') /\ priority_rank ev = 1%nat.
Proof.
  eexists. eexists. split; [reflexivity|].
  exact (proj2 (proj1 (proj2 created_events_rank_medium)
                      1441%nat 0 (clock 8 0) "t1"%string []
                      {| tk_title := "write report"; tk_duration_minutes := Some 720;
                         tk_preferred_date := None;
                         tk_priority := Some "urgent"%string |}
                      _ _ eq_refl)).
Defined.

(** X12.  [reschedule_conflicts] cannot resolve a conflict: whenever the
    provider reports any event in the desired range the call raises
    [TypeError] (it hands a [date] to [find_free_slots]) and stores
    nothing, for every fuel.  In particular an event of positive length
    cannot be rescheduled to its own start, since it is then found as its
    own conflict.  An unknown id gives [HttpError]. *)
Theorem reschedule_conflicts_conflict (fuel : nat) (event_id : string)
        (new_time : Z) (cal : store) :
  (forall original,
      events_get cal event_id = Ok original ->
      check_conflicts cal new_time (new_time + (ev_end original - ev_start original)) <> [] ->
      reschedule_conflicts fuel event_id new_time cal = (Raise TypeError, cal)) /\
  (forall original,
      events_get cal event_id = Ok original ->
      ev_start original < ev_end original ->
      reschedule_conflicts fuel event_id (ev_start original) cal = (Raise TypeError, cal)) /\
  (Forall (fun e => ev_id e <> event_id) cal ->
   reschedule_conflicts fuel event_id new_time cal = (Raise HttpError, cal)).
Proof.
  assert (Hconf : forall t original,
             events_get cal event_id = Ok original ->
             check_conflicts cal t (t + (ev_end original - ev_start original)) <> [] ->
             reschedule_conflicts fuel event_id t cal = (Raise TypeError, cal)).
  { intros t original Hget Hne. unfold reschedule_conflicts. rewrite Hget. cbv zeta.
    destruct (check_conflicts cal t (t + (ev_end original - ev_start original)));
      [contradiction | reflexivity]. }
  split; [apply Hconf|]. split.
  - intros original Hget Hpos. apply (Hconf _ original Hget).
    intros Hnil. apply check_conflicts_free in Hnil.
    unfold free_in in Hnil. rewrite List.Forall_forall in Hnil.
    apply (Hnil original).
    + unfold events_get in Hget.
      destruct (List.find (fun e => String.eqb (ev_id e) event_id) cal) as [x|] eqn:Hf;
        [|discriminate Hget].
      injection Hget as <-. apply find_some in Hf. exact (proj1 Hf).
    + unfold overlaps. lia.
  - intros Hfresh. unfold reschedule_conflicts, events_get.
    assert (Hnone : List.find (fun e => String.eqb (ev_id e) event_id) cal = None).
    { apply find_none_iff. eapply List.Forall_impl; [|exact Hfresh].
      intros e He. apply String.eqb_neq. exact He. }
    rewrite Hnone. reflexivity.
Qed.

Lemma reschedule_conflicts_conflict_witness :
  reschedule_conflicts 1441 "e1" (clock 9 0) [meeting "e1" (clock 9 0) (clock 10 0)]
  = (Raise TypeError, [meeting "e1" (clock 9 0) (clock 10 0)]) /\
  reschedule_conflicts 1441 "e7" (clock 9 0) [meeting "e1" (clock 9 0) (clock 10 0)]
  = (Raise HttpError, [meeting "e1" (clock 9 0) (clock 10 0)]).
Proof.
  split.
  - apply (proj1 (proj2 (reschedule_conflicts_conflict
                           1441 "e1" (clock 9 0)
                           [meeting "e1" (clock 9 0) (clock 10 0)]))
                 (meeting "e1" (clock 9 0) (clock 10 0)) eq_refl).
    reflexivity.
  - apply (proj2 (proj2 (reschedule_conflicts_conflict
                           1441 "e7" (clock 9 0)
                           [meeting "e1" (clock 9 0) (clock 10 0)]))).
    constructor; [discriminate | constructor].
Defined.

(** ** Optimizing a day *)

Lemma insert_by_rank_sorted e l :
  StronglySorted (fun a b => (priority_rank a <= priority_rank b)%nat) l ->
  StronglySorted (fun a b => (priority_rank a <= priority_rank b)%nat)
                 (insert_by_rank e l).
Proof.
  induction 1 as [|x l Hs IH Hx]; simpl.
  - constructor; constructor.
  - destruct (priority_rank e <=? priority_rank x)%nat eqn:Hle.
    + apply Nat.leb_le in Hle. constructor; [constructor; assumption|].
      constructor; [exact Hle|].
      eapply List.Forall_impl; [|exact Hx]. intros y Hy. simpl in Hy. lia.
    + apply Nat.leb_gt in Hle. constructor; [exact IH|].
      apply (Permutation_Forall (Permutation_sym (insert_by_rank_perm e l))).
      constructor; [lia | exact Hx].
Qed.

Lemma sort_by_priority_sorted events :
  StronglySorted (fun a b => (priority_rank a <= priority_rank b)%nat)
                 (sort_by_priority events).
Proof.
  induction events as [|e l IH]; simpl; [constructor|].
  apply insert_by_rank_sorted. exact IH.
Qed.

Lemma disjoint_events_perm l l' :
  Permutation l l' -> disjoint_events l -> disjoint_events l'.
Proof.
  unfold disjoint_events.
  assert (Hsym : forall a b, ~ events_overlap a b -> ~ events_overlap b a).
  { intros a b H [H1 H2]. apply H. split; assumption. }
  induction 1 as [|x l l' Hp IH|x y l|l l' l'' _ IH1 _ IH2]; intros H.
  - exact H.
  - inversion H as [|? ? Hx Hl]; subst.
    constructor; [exact (Permutation_Forall Hp Hx) | exact (IH Hl)].
  - inversion H as [|? ? Hy Hl]; subst.
    inversion Hl as [|? ? Hx Hl']; subst.
    inversion Hy as [|? ? Hyx Hyl]; subst.
    constructor; [|constructor; assumption].
    constructor; [exact (Hsym _ _ Hyx) | exact Hx].
  - exact (IH2 (IH1 H)).
Qed.

Lemma no_conflicts_with_done done ev :
  Forall (fun a => ~ events_overlap ev a) done ->
  conflicts_with (List.map keep_original done) (ev_start ev) (ev_end ev) = [].
Proof.
  induction 1 as [|a done Ha _ IH]; simpl; [reflexivity|].
  destruct ((ev_start ev <? ev_end a) && (ev_end ev >? ev_start a)) eqn:Hc;
    [|exact IH].
  exfalso. apply Ha. apply andb_true_iff in Hc as [H1 H2].
  apply Z.ltb_lt in H1. apply Z.gtb_gt in H2. split; lia.
Qed.

Lemma walk_disjoint reschedule cal :
  forall rest done,
    Forall (fun ev => Forall (fun a => ~ events_overlap ev a) done) rest ->
    disjoint_events rest ->
    optimize_walk reschedule rest (List.map keep_original done) cal
    = (Ok (List.map keep_original (done ++ rest)), cal).
Proof.
  induction rest as [|ev rest IH]; intros done Hdone Hdis.
  - rewrite app_nil_r. reflexivity.
  - cbn [optimize_walk]. cbv zeta.
    inversion Hdone as [|? ? Hev Hrest]; subst.
    inversion Hdis as [|? ? Hhead Htail]; subst.
    rewrite (no_conflicts_with_done done ev Hev).
    replace (List.map keep_original done ++ [keep_original ev])
      with (List.map keep_original (done ++ [ev]))
      by (rewrite List.map_app; reflexivity).
    rewrite IH; [rewrite <- app_assoc; reflexivity | | exact Htail].
    rewrite List.Forall_forall in Hrest, Hhead |- *.
    intros ev' Hin. apply Forall_app. split; [exact (Hrest ev' Hin)|].
    constructor; [|constructor].
    intros [H1 H2]. apply (Hhead ev' Hin). split; assumption.
Qed.

(** X13.  On a day whose events do not overlap each other
    [optimize_schedule] changes nothing: it returns every event of the
    day at its own interval, in non-decreasing order of priority rank
    ('low' first, 'urgent' last), calls no rescheduling and leaves the
    calendar as it was. *)
Theorem optimize_schedule_disjoint_day (fuel : nat) (dt : Z) (cal : store)
        (events : list event) :
  get_daily_agenda cal (PyDatetime dt) = Ok events ->
  disjoint_events events ->
  optimize_schedule fuel (PyDatetime dt) cal
  = (Ok (List.map keep_original (sort_by_priority events)), cal) /\
  Permutation (sort_by_priority events) events /\
  StronglySorted (fun a b => (priority_rank a <= priority_rank b)%nat)
                 (sort_by_priority events).
Proof.
  intros Hget Hdis. split; [|split].
  - unfold optimize_schedule. rewrite Hget.
    apply (walk_disjoint _ cal (sort_by_priority events) []).
    + apply List.Forall_forall. intros ev _. constructor.
    + apply (disjoint_events_perm events);
        [apply Permutation_sym, sort_by_priority_perm | exact Hdis].
  - apply sort_by_priority_perm.
  - apply sort_by_priority_sorted.
Qed.

Lemma optimize_schedule_disjoint_day_witness :
  optimize_schedule 1441 (PyDatetime (clock 7 0))
    [{| ev_id := "e1"; ev_summary := "review"; ev_start := clock 9 0;
        ev_end := clock 10 0; ev_priority := Some "urgent"%string |};
     {| ev_id := "e2"; ev_summary := "lunch"; ev_start := clock 12 0;
        ev_end := clock 13 0; ev_priority := Some "low"%string |}]
  = (Ok [keep_original
           {| ev_id := "e2"; ev_summary := "lunch"; ev_start := clock 12 0;
              ev_end := clock 13 0; ev_priority := Some "low"%string |};
         keep_original
           {| ev_id := "e1"; ev_summary := "review"; ev_start := clock 9 0;
              ev_end := clock 10 0; ev_priority := Some "urgent"%string |}],
     [{| ev_id := "e1"; ev_summary := "review"; ev_start := clock 9 0;
         ev_end := clock 10 0; ev_priority := Some "urgent"%string |};
      {| ev_id := "e2"; ev_summary := "lunch"; ev_start := clock 12 0;
         ev_end := clock 13 0; ev_priority := Some "low"%string |}]).
Proof.
  refine (proj1 (optimize_schedule_disjoint_day 1441 (clock 7 0) _ _ eq_refl _)).
  constructor; [|constructor; constructor].
  constructor; [|constructor]. intros [_ H]. vm_compute in H. discriminate H.
Defined.

Lemma events_get_unique cal ev :
  unique_ids cal -> In ev cal -> events_get cal (ev_id ev) = Ok ev.
Proof.
  unfold unique_ids, events_get. induction cal as [|x rest IH]; intros Hu Hin.
  - destruct Hin.
  - simpl in Hu. apply List.NoDup_cons_iff in Hu as [Hx Hu]. cbn [List.find].
    destruct (String.eqb (ev_id x) (ev_id ev)) eqn:He.
    + apply String.eqb_eq in He. destruct Hin as [-> | Hin]; [reflexivity|].
      exfalso. apply Hx. rewrite He. apply in_map. exact Hin.
    + destruct Hin as [-> | Hin]; [rewrite String.eqb_refl in He; discriminate He|].
      apply IH; assumption.
Qed.

Lemma reschedule_conflicts_blocked fuel cal ev a :
  events_get cal (ev_id ev) = Ok ev ->
  In a cal -> events_overlap ev a ->
  reschedule_conflicts fuel (ev_id ev) (ev_start ev) cal = (Raise TypeError, cal).
Proof.
  intros Hget Hin [H1 H2]. unfold reschedule_conflicts. rewrite Hget. cbv zeta.
  destruct (check_conflicts cal (ev_start ev)
              (ev_start ev + (ev_end ev - ev_start ev))) as [|c cs] eqn:Hc;
    [|reflexivity].
  exfalso. apply check_conflicts_free in Hc.
  unfold free_in in Hc. rewrite List.Forall_forall in Hc.
  apply (Hc a Hin). split; lia.
Qed.

Lemma conflicts_with_done_cases done ev :
  (conflicts_with (List.map keep_original done) (ev_start ev) (ev_end ev) = [] /\
   Forall (fun a => ~ events_overlap ev a) done) \/
  (exists c cs a,
      conflicts_with (List.map keep_original done) (ev_start ev) (ev_end ev) = c :: cs /\
      In a done /\ events_overlap ev a).
Proof.
  induction done as [|x done IH]; [left; split; [reflexivity | constructor]|].
  simpl.
  destruct ((ev_start ev <? ev_end x) && (ev_end ev >? ev_start x)) eqn:Hc.
  - right. apply andb_true_iff in Hc as [H1 H2].
    apply Z.ltb_lt in H1. apply Z.gtb_gt in H2.
    eexists _, _, x. split; [reflexivity|]. split; [left; reflexivity|].
    split; lia.
  - destruct IH as [[Hnil Hall] | (c & cs & a & Heq & Hin & Hov)].
    + left. split; [exact Hnil|]. constructor; [|exact Hall].
      intros [H1 H2]. apply andb_false_iff in Hc as [Hc | Hc].
      * apply Z.ltb_ge in Hc. lia.
      * rewrite Z.gtb_ltb in Hc. apply Z.ltb_ge in Hc. lia.
    + right. exists c, cs, a. split; [exact Heq|]. split; [right; exact Hin | exact Hov].
Qed.

Lemma walk_unique fuel cal :
  unique_ids cal ->
  forall rest done,
    (forall a, In a done -> In a cal) ->
    (forall ev, In ev rest -> In ev cal) ->
    (optimize_walk (reschedule_conflicts fuel) rest (List.map keep_original done) cal
     = (Ok (List.map keep_original (done ++ rest)), cal) /\
     Forall (fun ev => Forall (fun a => ~ events_overlap ev a) done) rest /\
     disjoint_events rest) \/
    optimize_walk (reschedule_conflicts fuel) rest (List.map keep_original done) cal
    = (Raise TypeError, cal).
Proof.
  intros Hu. induction rest as [|ev rest IH]; intros done Hdone Hrest.
  - left. rewrite app_nil_r. split; [reflexivity|]. split; constructor.
  - cbn [optimize_walk]. cbv zeta.
    destruct (conflicts_with_done_cases done ev)
      as [[Hnil Hall] | (c & cs & a & Heq & Hin & Hov)].
    + rewrite Hnil.
      replace (List.map keep_original done ++ [keep_original ev])
        with (List.map keep_original (done ++ [ev]))
        by (rewrite List.map_app; reflexivity).
      destruct (IH (done ++ [ev])) as [(Hrun & Hfree & Hdis) | Hfail].
      * intros x Hx. apply in_app_or in Hx as [Hx | [<- | []]];
          [apply Hdone; exact Hx | apply Hrest; left; reflexivity].
      * intros x Hx. apply Hrest. right. exact Hx.
      * left. rewrite Hrun, <- app_assoc. split; [reflexivity|].
        split.
        -- constructor; [exact Hall|].
           eapply List.Forall_impl; [|exact Hfree].
           intros x Hx. apply Forall_app in Hx. exact (proj1 Hx).
        -- constructor; [|exact Hdis].
           eapply List.Forall_impl; [|exact Hfree].
           intros x Hx. apply Forall_app in Hx as [_ Hx].
           inversion Hx as [|? ? Hxe _]; subst.
           intros [H1 H2]. apply Hxe. split; assumption.
      * right. exact Hfail.
    + right. rewrite Heq.
      rewrite (reschedule_conflicts_blocked fuel cal ev a);
        [reflexivity | | apply Hdone; exact Hin | exact Hov].
      apply events_get_unique; [exact Hu | apply Hrest; left; reflexivity].
Qed.

(** X14.  On a calendar whose events have distinct ids [optimize_schedule]
    never reschedules anything and never changes the calendar: when the
    events of the day do not overlap it returns them all at their own
    intervals, and as soon as two of them overlap it fails as a whole with
    [TypeError]. *)
Theorem optimize_schedule_never_reschedules (fuel : nat) (dt : Z) (cal : store)
        (events : list event) :
  unique_ids cal ->
  get_daily_agenda cal (PyDatetime dt) = Ok events ->
  (disjoint_events events /\
   optimize_schedule fuel (PyDatetime dt) cal
   = (Ok (List.map keep_original (sort_by_priority events)), cal)) \/
  (~ disjoint_events events /\
   optimize_schedule fuel (PyDatetime dt) cal = (Raise TypeError, cal)).
Proof.
  intros Hu Hget. unfold optimize_schedule. rewrite Hget.
  assert (Hin : forall ev, In ev (sort_by_priority events) -> In ev cal).
  { intros ev Hev.
    apply (Permutation_in _ (sort_by_priority_perm events)) in Hev.
    unfold get_daily_agenda, replace_midnight, bind_res in Hget.
    injection Hget as <-. apply events_list_In in Hev. exact (proj1 Hev). }
  destruct (walk_unique fuel cal Hu (sort_by_priority events) [])
    as [(Hrun & _ & Hdis) | Hfail].
  - intros a [].
  - exact Hin.
  - left. split; [|exact Hrun].
    apply (disjoint_events_perm (sort_by_priority events));
      [apply sort_by_priority_perm | exact Hdis].
  - right. split; [|exact Hfail].
    intros Hdis.
    assert (Hok : optimize_walk (reschedule_conflicts fuel) (sort_by_priority events)
                                (List.map keep_original []) cal
                  = (Ok (List.map keep_original ([] ++ sort_by_priority events)), cal)).
    { apply walk_disjoint.
      - apply List.Forall_forall. intros ev _. constructor.
      - apply (disjoint_events_perm events);
          [apply Permutation_sym, sort_by_priority_perm | exact Hdis]. }
    rewrite Hfail in Hok. discriminate Hok.
Qed.

Lemma optimize_schedule_never_reschedules_witness :
  optimize_schedule 1441 (PyDatetime 0)
    [meeting "e1" (clock 9 0) (clock 10 0); meeting "e2" (clock 9 59) (clock 11 0)]
  = (Raise TypeError,
     [meeting "e1" (clock 9 0) (clock 10 0); meeting "e2" (clock 9 59) (clock 11 0)]).
Proof.
  destruct (optimize_schedule_never_reschedules
              1441 0
              [meeting "e1" (clock 9 0) (clock 10 0);
               meeting "e2" (clock 9 59) (clock 11 0)] _
              ltac:(repeat constructor; simpl; intuition discriminate)
              eq_refl) as [[Hdis _] | [_ Hfail]].
  - exfalso. inversion Hdis as [|? ? Hhead _]; subst.
    inversion Hhead as [|? ? Hov _]; subst.
    apply Hov. split; reflexivity.
  - exact Hfail.
Defined.

(** C3.  [optimize_schedule] fails as a whole on a day with a conflict.
    On a calendar whose events have distinct ids, as soon as two events of
    the day overlap, the one that runs into the accumulator is handed to
    [reschedule_conflicts], which raises [TypeError]; the walk catches
    [ValueError] only, so the call raises [TypeError] for every fuel: no
    event is returned and no original interval is kept. *)
Theorem optimize_schedule_conflict_aborts (fuel : nat) (dt : Z) (cal : store)
        (events : list event) :
  unique_ids cal ->
  get_daily_agenda cal (PyDatetime dt) = Ok events ->
  ~ disjoint_events events ->
  optimize_schedule fuel (PyDatetime dt) cal = (Raise TypeError, cal) /\
  (forall out cal', optimize_schedule fuel (PyDatetime dt) cal <> (Ok out, cal')).
Proof.
  intros Hu Hget Hover.
  assert (Hfail : optimize_schedule fuel (PyDatetime dt) cal = (Raise TypeError, cal)).
  { unfold optimize_schedule. rewrite Hget.
    destruct (walk_unique fuel cal Hu (sort_by_priority events) [])
      as [(_ & _ & Hdis) | Hfail].
    - intros a [].
    - intros ev Hev.
      apply (Permutation_in _ (sort_by_priority_perm events)) in Hev.
      unfold get_daily_agenda, replace_midnight, bind_res in Hget.
      injection Hget as <-. apply events_list_In in Hev. exact (proj1 Hev).
    - exfalso. apply Hover.
      apply (disjoint_events_perm (sort_by_priority events));
        [apply sort_by_priority_perm | exact Hdis].
    - exact Hfail. }
  split; [exact Hfail|].
  intros out cal' Hok. rewrite Hfail in Hok. discriminate Hok.
Qed.

Lemma optimize_schedule_conflict_aborts_witness :
  optimize_schedule 1441 (PyDatetime 0)
    [meeting "e1" (clock 9 0) (clock 10 0); meeting "e2" (clock 9 30) (clock 10 30)]
  = (Raise TypeError,
     [meeting "e1" (clock 9 0) (clock 10 0); meeting "e2" (clock 9 30) (clock 10 30)]).
Proof.
  refine (proj1 (optimize_schedule_conflict_aborts
                   1441 0
                   [meeting "e1" (clock 9 0) (clock 10 0);
                    meeting "e2" (clock 9 30) (clock 10 30)] _
                   ltac:(repeat constructor; simpl; intuition discriminate)
                   eq_refl _)).
  intros Hdis. inversion Hdis as [|? ? Hhead _]; subst.
  inversion Hhead as [|? ? Hov _]; subst.
  apply Hov. split; reflexivity.
Defined.

(** ** More on routine suggestions *)

Lemma routine_days_first_slots fuel cal d preferred dow :
  0 < d -> truthy preferred = false -> (1441 <= fuel)%nat ->
  forall (days : nat) cur acc,
    exists new,
      routine_days fuel cal d preferred dow days cur acc = Ok (acc ++ new) /\
      (length new <= days)%nat /\
      StronglySorted (fun a b => sg_date a < sg_date b) new /\
      Forall (fun s =>
                cur <= sg_date s < cur + Z.of_nat days /\
                In (weekday (sg_date s)) dow /\
                (exists rest,
                    find_free_slots fuel cal (PyDatetime (combine_min (sg_date s))) d
                    = Ok ({| slot_start := sg_start_time s;
                             slot_end := sg_end_time s |} :: rest)) /\
                sg_end_time s - sg_start_time s = timedelta_minutes d /\
                combine_min (sg_date s) <= sg_start_time s /\
                sg_end_time s <= combine_min (sg_date s + 1) /\
                free_in cal (sg_start_time s) (sg_end_time s)) new.
Proof.
  intros Hd Hpref Hfuel. induction days as [|days IH]; intros cur acc.
  - exists []. rewrite app_nil_r. split; [reflexivity|].
    split; [reflexivity|]. split; constructor.
  - cbn [routine_days].
    assert (Hskip : forall acc',
               exists new,
                 routine_days fuel cal d preferred dow days (cur + 1) acc'
                 = Ok (acc' ++ new) /\
                 (length new <= days)%nat /\
                 StronglySorted (fun a b => sg_date a < sg_date b) new /\
                 Forall (fun s => cur < sg_date s) new /\
                 Forall (fun s =>
                           cur <= sg_date s < cur + Z.of_nat (S days) /\
                           In (weekday (sg_date s)) dow /\
                           (exists rest,
                               find_free_slots fuel cal
                                 (PyDatetime (combine_min (sg_date s))) d
                               = Ok ({| slot_start := sg_start_time s;
                                        slot_end := sg_end_time s |} :: rest)) /\
                           sg_end_time s - sg_start_time s = timedelta_minutes d /\
                           combine_min (sg_date s) <= sg_start_time s /\
                           sg_end_time s <= combine_min (sg_date s + 1) /\
                           free_in cal (sg_start_time s) (sg_end_time s)) new).
    { intros acc'. destruct (IH (cur + 1) acc') as (new & Hrun & Hlen & Hsort & Hall).
      exists new. split; [exact Hrun|]. split; [exact Hlen|]. split; [exact Hsort|].
      split; eapply List.Forall_impl; try exact Hall; cbv beta.
      - intros s (Hr & _). lia.
      - intros s (Hr & Hrest). split; [lia | exact Hrest]. }
    destruct (existsb (Z.eqb (weekday cur)) dow) eqn:Hday.
    + destruct (find_free_slots_total fuel cal (combine_min cur) d Hd Hfuel)
        as [slots Hslots].
      rewrite Hslots. cbn [bind_res].
      destruct slots as [|x rest].
      * destruct (Hskip acc) as (new & Hrun & Hlen & Hsort & _ & Hall).
        exists new. split; [exact Hrun|]. split; [lia|]. split; assumption.
      * unfold select_routine_slot. rewrite Hpref. cbn [first_item bind_res].
        destruct (Hskip (acc ++ [{| sg_date := cur; sg_start_time := slot_start x;
                                    sg_end_time := slot_end x |}]))
          as (new & Hrun & Hlen & Hsort & Hlater & Hall).
        eexists (_ :: new). rewrite Hrun, <- app_assoc.
        split; [reflexivity|]. split; [simpl; lia|].
        split; [constructor; [exact Hsort | exact Hlater]|].
        constructor; [|exact Hall]. cbn [sg_date sg_start_time sg_end_time].
        pose proof (find_free_slots_free_in _ _ _ _ _ Hd Hslots) as Hok.
        rewrite date_of_combine_min in Hok.
        inversion Hok as [|? ? (Hl & Hlo & Hhi & Hfree) _]; subst.
        split; [lia|]. split.
        -- apply existsb_exists in Hday as (w & Hw & Heq).
           apply Z.eqb_eq in Heq. rewrite Heq. exact Hw.
        -- split; [exists rest; destruct x; exact Hslots|].
           repeat split; assumption.
    + destruct (Hskip acc) as (new & Hrun & Hlen & Hsort & _ & Hall).
      exists new. split; [exact Hrun|]. split; [lia|]. split; assumption.
Qed.

(** X15.  Without a preferred time and for a positive duration
    [suggest_routine_times] always returns: at most one suggestion per
    allowed day of the 7 days from today, in increasing date order, each
    being the first free slot of its day, of exactly the duration, inside
    that day and overlapping no stored event. *)
Theorem suggest_routine_times_first_slots (fuel : nat) (cal : store) (today : Z)
        (routine : routine_data) :
  let d := default Settings.DEFAULT_EVENT_DURATION (rd_duration_minutes routine) in
  let dow := default [0; 1; 2; 3; 4] (rd_days_of_week routine) in
  0 < d ->
  truthy (rd_preferred_time routine) = false ->
  (1441 <= fuel)%nat ->
  exists suggestions,
    suggest_routine_times fuel cal today routine = Ok suggestions /\
    (length suggestions <= 7)%nat /\
    StronglySorted (fun a b => sg_date a < sg_date b) suggestions /\
    Forall (fun s =>
              today <= sg_date s < today + 7 /\
              In (weekday (sg_date s)) dow /\
              (exists rest,
                  find_free_slots fuel cal (PyDatetime (combine_min (sg_date s))) d
                  = Ok ({| slot_start := sg_start_time s;
                           slot_end := sg_end_time s |} :: rest)) /\
              sg_end_time s - sg_start_time s = timedelta_minutes d /\
              combine_min (sg_date s) <= sg_start_time s /\
              sg_end_time s <= combine_min (sg_date s + 1) /\
              Forall (fun e => ~ overlaps (sg_start_time s) (sg_end_time s)
                                  (ev_start e) (ev_end e)) cal) suggestions.
Proof.
  intros d dow Hd Hpref Hfuel. unfold suggest_routine_times. fold d. fold dow.
  destruct (routine_days_first_slots fuel cal d (rd_preferred_time routine) dow
                                     Hd Hpref Hfuel 7 today [])
    as (new & Hrun & Hlen & Hsort & Hall).
  exists new. split; [exact Hrun|]. split; [exact Hlen|]. split; [exact Hsort|].
  exact Hall.
Qed.

Lemma suggest_routine_times_first_slots_witness :
  exists suggestions,
    suggest_routine_times 1441 [meeting "e1" (combine_min 1) (combine_min 1 + clock 9 0)] 1
      {| rd_duration_minutes := Some 480; rd_preferred_time := VNone;
         rd_days_of_week := Some [0; 6] |} = Ok suggestions /\
    (length suggestions <= 7)%nat.
Proof.
  destruct (suggest_routine_times_first_slots
              1441 [meeting "e1" (combine_min 1) (combine_min 1 + clock 9 0)] 1
              {| rd_duration_minutes := Some 480; rd_preferred_time := VNone;
                 rd_days_of_week := Some [0; 6] |}
              ltac:(reflexivity) eq_refl ltac:(lia))
    as (suggestions & Hrun & Hlen & _).
  exists suggestions. split; [exact Hrun | exact Hlen].
Defined.

Lemma weekday_range d : 0 <= weekday d <= 6.
Proof.
  unfold weekday. pose proof (Z.mod_pos_bound (d + 6) 7 ltac:(lia)). lia.
Qed.

Lemma routine_days_no_match fuel cal d preferred dow :
  Forall (fun w => w < 0 \/ 6 < w) dow ->
  forall (days : nat) cur acc,
    routine_days fuel cal d preferred dow days cur acc = Ok acc.
Proof.
  intros Hout. induction days as [|days IH]; intros cur acc; [reflexivity|].
  cbn [routine_days].
  assert (Hno : existsb (Z.eqb (weekday cur)) dow = false).
  { destruct (existsb (Z.eqb (weekday cur)) dow) eqn:He; [|reflexivity].
    exfalso. apply existsb_exists in He as (w & Hw & Heq).
    apply Z.eqb_eq in Heq. rewrite List.Forall_forall in Hout.
    pose proof (Hout w Hw). pose proof (weekday_range cur). lia. }
  rewrite Hno. apply IH.
Qed.

(** X16.  When [days_of_week] holds no number from 0 to 6 (an empty list,
    or a 1-based 7 meant as Sunday) [suggest_routine_times] returns the
    empty list without looking at the calendar: for every duration, also 0
    or less, and every preferred time. *)
Theorem suggest_routine_times_no_day (fuel : nat) (cal : store) (today : Z)
        (routine : routine_data) (days_of_week : list Z) :
  rd_days_of_week routine = Some days_of_week ->
  Forall (fun w => w < 0 \/ 6 < w) days_of_week ->
  suggest_routine_times fuel cal today routine = Ok [].
Proof.
  intros Hdow Hout. unfold suggest_routine_times. rewrite Hdow.
  apply routine_days_no_match. exact Hout.
Qed.

Lemma suggest_routine_times_no_day_witness :
  suggest_routine_times 0 [] 1
    {| rd_duration_minutes := Some 0; rd_preferred_time := VTime 0;
       rd_days_of_week := Some [7] |} = Ok [].
Proof.
  apply (suggest_routine_times_no_day
           0 [] 1
           {| rd_duration_minutes := Some 0; rd_preferred_time := VTime 0;
              rd_days_of_week := Some [7] |} [7] eq_refl).
  constructor; [right; reflexivity | constructor].
Defined.

(** ** Updating and deleting events *)

Lemma filter_keep_all {A} (f : A -> bool) l :
  Forall (fun x => f x = true) l -> List.filter f l = l.
Proof.
  induction 1 as [|x l Hx _ IH]; simpl; [reflexivity|].
  rewrite Hx, IH. reflexivity.
Qed.

(** X18.  Creating and then deleting an event restores the calendar: when
    the id the provider gives is new, [delete_event] of the event that
    [create_event] returned leaves exactly the calendar from before, and a
    lookup of the id then fails with [HttpError]; [delete_event] of an
    unknown id raises [HttpError] and changes nothing. *)
Theorem create_then_delete (now : Z) (new_id : string) (cal : store)
        (data : event_data) :
  Forall (fun e => ev_id e <> new_id) cal ->
  (forall ev cal',
      create_event now new_id cal data = (Ok ev, cal') ->
      delete_event cal' (ev_id ev) = (Ok tt, cal)) /\
  events_get cal new_id = Raise HttpError /\
  delete_event cal new_id = (Raise HttpError, cal).
Proof.
  intros Hfresh.
  assert (Hnone : List.find (fun e => String.eqb (ev_id e) new_id) cal = None).
  { apply find_none_iff. eapply List.Forall_impl; [|exact Hfresh].
    intros e He. apply String.eqb_neq. exact He. }
  split; [|split].
  - intros ev cal' Hrun. rewrite create_event_shape in Hrun. cbv zeta in Hrun.
    injection Hrun as <- <-. cbn [ev_id]. unfold delete_event, events_delete.
    rewrite find_app_first, Hnone. cbn [List.find ev_id].
    rewrite String.eqb_refl. f_equal.
    rewrite List.filter_app. cbn [List.filter ev_id].
    rewrite String.eqb_refl. cbn [negb]. rewrite app_nil_r.
    apply filter_keep_all.
    eapply List.Forall_impl; [|exact Hfresh].
    intros e He. apply String.eqb_neq in He. rewrite He. reflexivity.
  - unfold events_get. rewrite Hnone. reflexivity.
  - unfold delete_event, events_delete. rewrite Hnone. reflexivity.
Qed.

Lemma create_then_delete_witness :
  exists ev cal',
    create_event (clock 8 0) "e2" [meeting "e1" (clock 9 0) (clock 10 0)]
      {| ed_title := Some "call"%string; ed_start_time := Some (clock 11 0);
         ed_end_time := None |} = (Ok ev, cal') /\
    delete_event cal' (ev_id ev) = (Ok tt, [meeting "e1" (clock 9 0) (clock 10 0)]).
Proof.
  eexists. eexists. split; [reflexivity|].
  apply (proj1 (create_then_delete
                  (clock 8 0) "e2" [meeting "e1" (clock 9 0) (clock 10 0)]
                  {| ed_title := Some "call"%string; ed_start_time := Some (clock 11 0);
                     ed_end_time := None |}
                  ltac:(constructor; [discriminate | constructor]))).
  reflexivity.
Defined.

(** ** The fallback parser's times *)

Lemma parse_time_parsed today t days_ahead dt :
  _parse_time today t days_ahead = Parsed dt ->
  0 <= clock_hour t <= 23 /\
  0 <= default 0 (tt_minute t) <= 59 /\
  dt = combine_min (today + days_ahead)
       + clock_hour t * hour_us + default 0 (tt_minute t) * minute_us.
Proof.
  unfold _parse_time. cbv zeta.
  destruct ((0 <=? clock_hour t) && (clock_hour t <=? 23)
            && (0 <=? default 0 (tt_minute t)) && (default 0 (tt_minute t) <=? 59))
    eqn:Hc; [|discriminate].
  intros [= <-].
  repeat (apply andb_true_iff in Hc as [Hc ?]).
  rewrite ?Z.leb_le in *.
  split; [lia|]. split; [lia|].
  unfold combine_min, timedelta_days. lia.
Qed.

Lemma clock_time_of day h m :
  0 <= h <= 23 -> 0 <= m <= 59 ->
  let dt := combine_min day + h * hour_us + m * minute_us in
  date_of dt = day /\ time_of dt = h * hour_us + m * minute_us /\ hour_of dt = h.
Proof.
  intros Hh Hm dt.
  assert (Ht : time_of dt = h * hour_us + m * minute_us).
  { unfold time_of. symmetry. apply (Z.mod_unique_pos _ _ day).
    - unfold day_us, hour_us, minute_us, second_us. lia.
    - unfold dt, combine_min. lia. }
  split; [|split; [exact Ht|]].
  - unfold date_of. symmetry.
    apply (Z.div_unique_pos _ _ _ (h * hour_us + m * minute_us)).
    + unfold day_us, hour_us, minute_us, second_us. lia.
    + unfold dt, combine_min. lia.
  - unfold hour_of. rewrite Ht. symmetry.
    apply (Z.div_unique_pos _ _ _ (m * minute_us)).
    + unfold hour_us, minute_us, second_us. lia.
    + lia.
Qed.



Lemma weekdays_range key target :
  weekdays !! key = Some target -> 0 <= target <= 6.
Proof.
  unfold weekdays. intros H.
  repeat (apply lookup_insert_Some in H as [[_ <-] | [_ H]]; [lia|]).
  rewrite lookup_empty in H. discriminate H.
Qed.

Lemma next_weekday_arith today target :
  0 <= target <= 6 ->
  let k := (target - weekday today) mod 7 in
  let days_ahead := if k =? 0 then 7 else k in
  1 <= days_ahead <= 7 /\ weekday (today + days_ahead) = target.
Proof.
  intros Ht k days_ahead.
  pose proof (Z.mod_pos_bound (target - weekday today) 7 ltac:(lia)) as Hk.
  fold k in Hk.
  assert (Hrange : 1 <= days_ahead <= 7).
  { unfold days_ahead. destruct (k =? 0) eqn:Hz; [lia|].
    apply Z.eqb_neq in Hz. lia. }
  split; [exact Hrange|].
  pose proof (Z.div_mod (today + 6) 7 ltac:(lia)) as H1.
  pose proof (Z.div_mod (target - weekday today) 7 ltac:(lia)) as H2.
  fold k in H2. unfold weekday in H2 |- *.
  symmetry. unfold days_ahead. destruct (k =? 0) eqn:Hz.
  - apply Z.eqb_eq in Hz.
    apply (Z.mod_unique_pos _ _
             ((today + 6) / 7 - (target - (today + 6) mod 7) / 7 + 1));
      [lia|]. lia.
  - apply (Z.mod_unique_pos _ _
             ((today + 6) / 7 - (target - (today + 6) mod 7) / 7));
      [lia|]. lia.
Qed.

(** X20.  [_parse_time_next_weekday] never answers with today: for a
    weekday name in any letter case the time it returns lies 1 to 7 days
    ahead, on a day of the weekday named (a week ahead when today is that
    weekday).  A word that is no weekday name, as in "next week at 5",
    raises [KeyError]. *)
Theorem next_weekday_lands (today : Z) (weekday_word : string) (t : time_text) :
  (forall target dt,
      weekdays !! lower weekday_word = Some target ->
      _parse_time_next_weekday today weekday_word t = Parsed dt ->
      today + 1 <= date_of dt <= today + 7 /\
      weekday (date_of dt) = target /\
      hour_of dt = clock_hour t) /\
  (weekdays !! lower weekday_word = None ->
   _parse_time_next_weekday today weekday_word t = RaisesKeyError) /\
  weekdays !! lower "FriDay" = Some 4 /\
  weekdays !! lower "week" = None.
Proof.
  split; [|split; [|split]]; [| |reflexivity|reflexivity].
  - intros target dt Hw Hrun. unfold _parse_time_next_weekday in Hrun.
    rewrite Hw in Hrun. cbv zeta in Hrun.
    pose proof (weekdays_range _ _ Hw) as Hr.
    destruct (next_weekday_arith today target Hr) as [Hk Hday].
    cbv zeta in Hk, Hday.
    apply parse_time_parsed in Hrun as (Hh & Hm & ->).
    match goal with
    | |- context [combine_min ?day] =>
        destruct (clock_time_of day _ _ Hh Hm) as (Hd & _ & Hho)
    end.
    cbv zeta in Hd, Hho. rewrite Hd.
    split; [lia|]. split; [exact Hday | exact Hho].
  - intros Hnone. unfold _parse_time_next_weekday. rewrite Hnone. reflexivity.
Qed.

Lemma next_weekday_lands_witness :
  exists dt,
    _parse_time_next_weekday 8 "Monday" {| tt_hour := 9; tt_minute := None;
                                           tt_meridiem := Some AM |} = Parsed dt /\
    date_of dt = 15 /\ weekday (date_of dt) = 0.
Proof.
  eexists. split; [reflexivity|].
  destruct (proj1 (next_weekday_lands 8 "Monday"
                     {| tt_hour := 9; tt_minute := None; tt_meridiem := Some AM |})
                  0 _ eq_refl eq_refl) as (_ & Hw & _).
  split; [reflexivity | exact Hw].
Defined.

(** ** The gap report *)

Lemma find_gaps_between at_least d :
  forall busy,
    (length (find_gaps at_least busy d) <= Nat.pred (length busy))%nat /\
    Forall (fun g =>
              exists pre current next post,
                busy = pre ++ current :: next :: post /\
                gap_start g = slot_end current /\
                gap_end g = slot_start next /\
                at_least (slot_start next - slot_end current) d = true)
           (find_gaps at_least busy d).
Proof.
  induction busy as [|current rest IH]; [split; [reflexivity | constructor]|].
  destruct rest as [|next post]; [split; [reflexivity | constructor]|].
  destruct IH as [IHlen IHall].
  change (find_gaps at_least (current :: next :: post) d)
    with ((if at_least (slot_start next - slot_end current) d
           then [{| gap_start := slot_end current; gap_end := slot_start next |}]
           else [])
          ++ find_gaps at_least (next :: post) d).
  assert (Hrest : Forall (fun g =>
                            exists pre current0 next0 post0,
                              current :: next :: post
                              = pre ++ current0 :: next0 :: post0 /\
                              gap_start g = slot_end current0 /\
                              gap_end g = slot_start next0 /\
                              at_least (slot_start next0 - slot_end current0) d = true)
                         (find_gaps at_least (next :: post) d)).
  { eapply List.Forall_impl; [|exact IHall].
    intros g (pre & c & n & po & Heq & Hs & He & Hfit).
    exists (current :: pre), c, n, po. rewrite Heq. repeat split; assumption. }
  destruct (at_least (slot_start next - slot_end current) d) eqn:Hfit.
  - split; [simpl in *; lia|].
    constructor; [|exact Hrest].
    exists [], current, next, post. repeat split; assumption.
  - split; [simpl in *; lia | exact Hrest].
Qed.

(** X21.  [suggest_time_slots] only ever offers the time between two
    consecutive busy slots of the list it is given: every gap it lists runs
    from the end of one busy slot to the start of the next and passed the
    duration test, and there are fewer gaps than busy slots.  Free time
    before the first or after the last busy slot is never offered, so with
    a single busy slot the answer is always "no suitable time slots", and
    with none it is "no events"; this holds whatever the duration. *)
Theorem gap_report (at_least : Z -> Z -> bool) (busy_slots : list slot)
        (duration_minutes : Z) :
  (busy_slots = [] ->
   suggest_time_slots at_least busy_slots duration_minutes = NoEvents) /\
  (forall only, busy_slots = [only] ->
                suggest_time_slots at_least busy_slots duration_minutes = NoSuitableSlot) /\
  (forall gaps,
      suggest_time_slots at_least busy_slots duration_minutes = AvailableSlots gaps ->
      gaps <> [] /\
      (length gaps < length busy_slots)%nat /\
      Forall (fun g =>
                exists pre current next post,
                  busy_slots = pre ++ current :: next :: post /\
                  gap_start g = slot_end current /\
                  gap_end g = slot_start next /\
                  at_least (slot_start next - slot_end current) duration_minutes = true)
             gaps).
Proof.
  split; [intros ->; reflexivity|]. split; [intros only ->; reflexivity|].
  intros gaps Hrun. unfold suggest_time_slots in Hrun.
  destruct busy_slots as [|b rest]; [discriminate Hrun|].
  destruct (find_gaps_between at_least duration_minutes (b :: rest)) as [Hlen Hall].
  destruct (find_gaps at_least (b :: rest) duration_minutes) as [|g gs];
    [discriminate Hrun|].
  injection Hrun as <-.
  split; [discriminate|]. split; [simpl in *; lia | exact Hall].
Qed.

Lemma gap_report_witness :
  suggest_time_slots (fun gap_us d => d * minute_us <=? gap_us)
    [{| slot_start := clock 9 0; slot_end := clock 17 0 |}] 30
  = NoSuitableSlot /\
  suggest_time_slots (fun gap_us d => d * minute_us <=? gap_us)
    [{| slot_start := clock 9 0; slot_end := clock 10 0 |};
     {| slot_start := clock 11 0; slot_end := clock 12 0 |}] 30
  = AvailableSlots [{| gap_start := clock 10 0; gap_end := clock 11 0 |}].
Proof.
  split.
  - apply (proj1 (proj2 (gap_report (fun gap_us d => d * minute_us <=? gap_us)
                                    [{| slot_start := clock 9 0;
                                        slot_end := clock 17 0 |}] 30))
                 {| slot_start := clock 9 0; slot_end := clock 17 0 |}).
    reflexivity.
  - reflexivity.
Defined.
